(** * Faith: the WhatsApp REST server (src/index.js)

    A shallow embedding of the server's in-process state (the client handle,
    [connectionState], [chats], [messagesStore]), of its event handlers and
    of its HTTP handlers, with the Baileys client, the file system, the clock
    and the scheduling of other handlers at each [await] taken as an
    environment. *)

From Stdlib Require Import ZArith List String Ascii Bool Lia.
From stdpp Require Import gmap strings list.

Local Open Scope string_scope.
Local Open Scope Z_scope.

(** ** JavaScript values used by the server *)

(** A string-or-null field.  [None] is [null]/[undefined]. *)
Definition truthy (v : option string) : bool :=
  match v with
  | Some s => negb (String.eqb s "")
  | None => false
  end.

(** [a || b] where [b] is always a string. *)
Definition or_else (a : option string) (b : string) : string :=
  match a with
  | Some s => if String.eqb s "" then b else s
  | None => b
  end.

(** [a || b] on string-or-null operands. *)
Definition or_opt (a b : option string) : option string :=
  if truthy a then a else b.

(** [s.split(sep)[0]] *)
Fixpoint split_first (sep : ascii) (s : string) : string :=
  match s with
  | EmptyString => EmptyString
  | String c rest =>
      if Ascii.eqb c sep then EmptyString else String c (split_first sep rest)
  end.

(** [s.endsWith(suffix)] *)
Definition endsWith (s suffix : string) : bool :=
  let n := String.length s in
  let m := String.length suffix in
  if (m <=? n)%nat then String.eqb (substring (n - m) m s) suffix else false.

Definition is_digit (c : ascii) : bool :=
  let n := nat_of_ascii c in ((48 <=? n) && (n <=? 57))%nat.

(** [s.replace(/\D/g, '')] *)
Fixpoint strip_non_digits (s : string) : string :=
  match s with
  | EmptyString => EmptyString
  | String c rest =>
      if is_digit c then String c (strip_non_digits rest)
      else strip_non_digits rest
  end.

(** ** Data model *)

Module LastMessage.
Record t := mk { body : string; timestamp : Z }.
End LastMessage.

Module Chat.
Record t := mk {
  id : string;
  name : string;
  isGroup : bool;
  timestamp : Z;
  lastMessage : option LastMessage.t
}.
End Chat.

(** A cached message.  Inbound records carry [from] and [type]; the record
    built by the send endpoint has neither property. *)
Module Message.
Record t := mk {
  id : string;
  body : string;
  from : option string;
  timestamp : Z;
  isOutgoing : bool;
  type : option string
}.
End Message.

(** ** updateChatWithMessage (src/index.js 195-216) *)

(** [chats.find(c => c.id === chatId)], with the position of the entry found:
    the entry is then mutated where it sits in the array. *)
Definition find_chat (chatId : string) (chats : list Chat.t)
  : option (nat * Chat.t) :=
  list_find (fun c => Chat.id c = chatId) chats.

Definition updateChatWithMessage (chatId : string) (message : Message.t)
    (chats : list Chat.t) : list Chat.t :=
  match find_chat chatId chats with
  | Some (i, existingChat) =>
      <[ i := {| Chat.id := Chat.id existingChat;
                 Chat.name := Chat.name existingChat;
                 Chat.isGroup := Chat.isGroup existingChat;
                 Chat.timestamp := Message.timestamp message;
                 Chat.lastMessage :=
                   Some {| LastMessage.body := Message.body message;
                           LastMessage.timestamp := Message.timestamp message |}
              |} ]> chats
  | None =>
      {| Chat.id := chatId;
         Chat.name := split_first "@" chatId;
         Chat.isGroup := endsWith chatId "@g.us";
         Chat.timestamp := Message.timestamp message;
         Chat.lastMessage :=
           Some {| LastMessage.body := Message.body message;
                   LastMessage.timestamp := Message.timestamp message |}
      |} :: chats
  end.

(** ** Messages as the protocol client delivers them *)

(** One populated key of [msg.message], in the object's key order. *)
Inductive MessageField :=
| conversation (text : option string)
| extendedTextMessage (text : option string)
| imageMessage (caption : option string)
| otherMessage (key : string).

Definition field_key (f : MessageField) : string :=
  match f with
  | conversation _ => "conversation"
  | extendedTextMessage _ => "extendedTextMessage"
  | imageMessage _ => "imageMessage"
  | otherMessage k => k
  end.

Module WAMessage.
Record t := mk {
  remoteJid : string;                       (* msg.key.remoteJid *)
  id : string;                              (* msg.key.id *)
  fromMe : bool;                            (* msg.key.fromMe *)
  message : option (list MessageField);     (* msg.message *)
  messageTimestamp : Z
}.
End WAMessage.

(** [msg.message?.conversation] *)
Fixpoint get_conversation (fields : list MessageField) : option string :=
  match fields with
  | [] => None
  | conversation t :: _ => t
  | _ :: rest => get_conversation rest
  end.

(** [msg.message?.extendedTextMessage?.text] *)
Fixpoint get_extended_text (fields : list MessageField) : option string :=
  match fields with
  | [] => None
  | extendedTextMessage t :: _ => t
  | _ :: rest => get_extended_text rest
  end.

(** [msg.message?.imageMessage?.caption] *)
Fixpoint get_image_caption (fields : list MessageField) : option string :=
  match fields with
  | [] => None
  | imageMessage c :: _ => c
  | _ :: rest => get_image_caption rest
  end.

Definition msg_conversation (msg : WAMessage.t) : option string :=
  match WAMessage.message msg with Some f => get_conversation f | None => None end.
Definition msg_extended_text (msg : WAMessage.t) : option string :=
  match WAMessage.message msg with Some f => get_extended_text f | None => None end.
Definition msg_image_caption (msg : WAMessage.t) : option string :=
  match WAMessage.message msg with Some f => get_image_caption f | None => None end.

(** The [messageData] literal of the [messages.upsert] handler
    (src/index.js 125-135). *)
Definition messageData (msg : WAMessage.t) : Message.t :=
  {| Message.id := WAMessage.id msg;
     Message.body :=
       or_else (or_opt (or_opt (msg_conversation msg) (msg_extended_text msg))
                       (msg_image_caption msg))
               "[Media]";
     Message.from := Some (WAMessage.remoteJid msg);
     Message.timestamp := WAMessage.messageTimestamp msg;
     Message.isOutgoing := WAMessage.fromMe msg;
     Message.type :=
       match WAMessage.message msg with
       | Some f => head (map field_key f)
       | None => None
       end |}.

(** ** Process state *)

Record ConnectionState := {
  connected : bool;
  connecting : bool;
  pairingCode : option string;
  phoneNumber : option string;
  error : option string;
  qr : option string
}.

Definition initialConnectionState : ConnectionState :=
  {| connected := false; connecting := false; pairingCode := None;
     phoneNumber := None; error := None; qr := None |}.

Definition Socket := nat.

Record World := {
  sock : option Socket;
  connectionState : ConnectionState;
  chats : list Chat.t;
  messagesStore : gmap string (list Message.t)
}.

Definition initialWorld : World :=
  {| sock := None; connectionState := initialConnectionState;
     chats := []; messagesStore := ∅ |}.

(** [messagesStore] is created by the literal [{}], so a property read also
    finds the members of [Object.prototype]. *)
Definition object_prototype_keys : list string :=
  [ "constructor"; "__defineGetter__"; "__defineSetter__"; "hasOwnProperty";
    "__lookupGetter__"; "__lookupSetter__"; "isPrototypeOf";
    "propertyIsEnumerable"; "toString"; "valueOf"; "__proto__";
    "toLocaleString" ].

Definition is_prototype_key (k : string) : bool :=
  existsb (String.eqb k) object_prototype_keys.

(** What [messagesStore[k]] evaluates to. *)
Inductive Property :=
| Array (l : list Message.t)      (* an own property: the chat's cache *)
| ProtoMember (key : string)      (* inherited: a function or Object.prototype *)
| Undefined.

Definition get_property (store : gmap string (list Message.t)) (k : string)
  : Property :=
  match store !! k with
  | Some l => Array l
  | None => if is_prototype_key k then ProtoMember k else Undefined
  end.

(** ** Field updates *)

Definition set_connected (b : bool) (c : ConnectionState) : ConnectionState :=
  {| connected := b; connecting := connecting c; pairingCode := pairingCode c;
     phoneNumber := phoneNumber c; error := error c; qr := qr c |}.
Definition set_connecting (b : bool) (c : ConnectionState) : ConnectionState :=
  {| connected := connected c; connecting := b; pairingCode := pairingCode c;
     phoneNumber := phoneNumber c; error := error c; qr := qr c |}.
Definition set_pairingCode (v : option string) (c : ConnectionState) : ConnectionState :=
  {| connected := connected c; connecting := connecting c; pairingCode := v;
     phoneNumber := phoneNumber c; error := error c; qr := qr c |}.
Definition set_phoneNumber (v : option string) (c : ConnectionState) : ConnectionState :=
  {| connected := connected c; connecting := connecting c; pairingCode := pairingCode c;
     phoneNumber := v; error := error c; qr := qr c |}.
Definition set_error (v : option string) (c : ConnectionState) : ConnectionState :=
  {| connected := connected c; connecting := connecting c; pairingCode := pairingCode c;
     phoneNumber := phoneNumber c; error := v; qr := qr c |}.
Definition set_qr (v : option string) (c : ConnectionState) : ConnectionState :=
  {| connected := connected c; connecting := connecting c; pairingCode := pairingCode c;
     phoneNumber := phoneNumber c; error := error c; qr := v |}.

Definition with_sock (s : option Socket) (w : World) : World :=
  {| sock := s; connectionState := connectionState w; chats := chats w;
     messagesStore := messagesStore w |}.
Definition with_connectionState (c : ConnectionState) (w : World) : World :=
  {| sock := sock w; connectionState := c; chats := chats w;
     messagesStore := messagesStore w |}.
Definition with_chats (cs : list Chat.t) (w : World) : World :=
  {| sock := sock w; connectionState := connectionState w; chats := cs;
     messagesStore := messagesStore w |}.
Definition with_messagesStore (m : gmap string (list Message.t)) (w : World) : World :=
  {| sock := sock w; connectionState := connectionState w; chats := chats w;
     messagesStore := m |}.

(** ** The environment of a handler run *)

(** A call that has settled: it returned, or threw an [Error] with this
    [message].  A call that never settles is not represented. *)
Inductive outcome (A : Type) :=
| Returned (a : A)
| Thrown (message : string).
Arguments Returned {A} a.
Arguments Thrown {A} message.

(** Calls that leave the process, in the order they are made. *)
Inductive Call :=
| CallUseMultiFileAuthState
| CallFetchLatestBaileysVersion
| CallMakeWASocket
| CallRequestPairingCode (phone : string)
| CallSendMessage (jid text : string)
| CallLogout
| CallGroupFetchAllParticipating
| CallExistsSync
| CallRmSync
| CallMkdirSync
| Sleep (ms : Z)                               (* await of a setTimeout *)
| ScheduleReconnect (phone : string) (ms : Z). (* setTimeout, not awaited *)

(** The suspension points of the handlers.  While a handler is suspended the
    event loop runs other handlers, which may change the whole state. *)
Inductive Await :=
| AwaitAuthState
| AwaitVersion
| AwaitReady
| AwaitPairingCode
| AwaitPoll (attempts : nat)
| AwaitSend
| AwaitLogout
| AwaitGroups.

Module GroupMetadata.
Record t := mk { id : string; subject : option string; creation : Z }.
End GroupMetadata.

Record Env := {
  useMultiFileAuthState : outcome bool;        (* state.creds.registered *)
  fetchLatestBaileysVersion : outcome unit;
  makeWASocket : outcome Socket;
  requestPairingCode : string -> outcome string;
  sendMessage : string -> string -> outcome string;   (* sentMessage.key.id *)
  logout : outcome unit;
  groupFetchAllParticipating : outcome (list GroupMetadata.t);
  loggedOut : Z;                               (* DisconnectReason.loggedOut *)
  existsSync : bool;
  rmSync : outcome unit;
  mkdirSync : outcome unit;
  Date_now : Z;
  decodeURIComponent : string -> outcome string;
  during : Await -> World -> World
}.

(** ** Handlers as state transformers that may throw and that log calls *)

Definition M (A : Type) : Type := World -> outcome A * World * list Call.

Definition ret {A} (a : A) : M A := fun w => (Returned a, w, []).

Definition bind {A B} (m : M A) (f : A -> M B) : M B :=
  fun w =>
    match m w with
    | (Returned a, w1, t1) =>
        match f a w1 with (o, w2, t2) => (o, w2, (t1 ++ t2)%list) end
    | (Thrown e, w1, t1) => (Thrown e, w1, t1)
    end.

Definition throw {A} (e : string) : M A := fun w => (Thrown e, w, []).

(** [try { m } catch (error) { h error.message }] *)
Definition try_catch {A} (m : M A) (h : string -> M A) : M A :=
  fun w =>
    match m w with
    | (Returned a, w1, t1) => (Returned a, w1, t1)
    | (Thrown e, w1, t1) =>
        match h e w1 with (o, w2, t2) => (o, w2, (t1 ++ t2)%list) end
    end.

Definition get : M World := fun w => (Returned w, w, []).
Definition modify (f : World -> World) : M unit := fun w => (Returned tt, f w, []).
Definition call (c : Call) : M unit := fun w => (Returned tt, w, [c]).
Definition lift {A} (o : outcome A) : M A := fun w => (o, w, []).

Definition update_state (f : ConnectionState -> ConnectionState) : M unit :=
  modify (fun w => with_connectionState (f (connectionState w)) w).

Declare Scope js_scope.
Delimit Scope js_scope with js.
Notation "x <- m ;; k" := (bind m (fun x => k))
  (at level 100, m at next level, right associativity) : js_scope.
Notation "m ;; k" := (bind m (fun _ => k))
  (at level 100, right associativity) : js_scope.
Notation "'try' m 'catch' h" := (try_catch m h)
  (at level 100, m at level 200, h at level 9) : js_scope.
Local Open Scope js_scope.

Definition result {A} (r : outcome A * World * list Call) : outcome A := fst (fst r).
Definition world_after {A} (r : outcome A * World * list Call) : World := snd (fst r).
Definition calls {A} (r : outcome A * World * list Call) : list Call := snd r.

(** ** HTTP responses *)

Module Contact.
Record t := mk { id : string; name : string; number : string; isGroup : bool }.
End Contact.

(** The objects the handlers below pass to [res.json].  In [MessageList] the
    [messages] member is whatever the property read gave: for an inherited
    function [JSON.stringify] leaves the member out, and for
    [Object.prototype] it writes an empty object. *)
Inductive Body :=
| Plain (success : bool) (message : string)
| PairingCode (pairingCode message : string)   (* success: true *)
| AlreadyConnected (message : string)          (* success: true, connected: true *)
| ChatList (chats : list Chat.t)               (* success: true *)
| MessageList (messages : Property)            (* success: true *)
| SentMessage (message : Message.t)            (* success: true *)
| ContactList (contacts : list Contact.t).     (* success: true *)

Definition success (b : Body) : bool :=
  match b with
  | Plain s _ => s
  | _ => true
  end.

Record Response := { status : Z; body : Body }.

(** [res.json(b)] *)
Definition json (b : Body) : Response := {| status := 200; body := b |}.
(** [res.status(s).json(b)] *)
Definition status_json (s : Z) (b : Body) : Response := {| status := s; body := b |}.

Definition not_connected : Response :=
  status_json 503 (Plain false "WhatsApp not connected").

(** The phone number member of a request body, as [express.json()] parses it. *)
Inductive JsonValue :=
| JUndefined
| JNull
| JBool (b : bool)
| JNumber (n : Z)
| JString (s : string)
| JObject.                                     (* an array or an object *)

(** [!v] is false *)
Definition json_truthy (v : JsonValue) : bool :=
  match v with
  | JUndefined | JNull => false
  | JBool b => b
  | JNumber n => negb (n =? 0)
  | JString s => negb (String.eqb s "")
  | JObject => true
  end.

Module ConnectionUpdate.
Record t := mk {
  connection : option string;
  statusCode : option Z;       (* lastDisconnect?.error?.output?.statusCode *)
  qr : option string
}.
End ConnectionUpdate.

Fixpoint for_each {A} (l : list A) (f : A -> M unit) : M unit :=
  match l with
  | [] => ret tt
  | x :: rest => f x ;; for_each rest f
  end.

(** [if (!messagesStore[k]) messagesStore[k] = []] *)
Definition ensure_array (k : string) : M unit :=
  modify (fun w =>
    match get_property (messagesStore w) k with
    | Undefined => with_messagesStore (<[k := []]> (messagesStore w)) w
    | _ => w
    end).

(** [messagesStore[k].push(m)]; [what] is the expression V8 names in the
    [TypeError] when the property has no [push]. *)
Definition push_message (k : string) (m : Message.t) (what : string) : M unit :=
  w <- get ;;
  match get_property (messagesStore w) k with
  | Array l => modify (with_messagesStore (<[k := (l ++ [m])%list]> (messagesStore w)))
  | ProtoMember _ => throw (what ++ ".push is not a function")
  | Undefined =>
      throw ("Cannot read properties of undefined (reading 'push')")
  end.

Definition maxAttempts : nat := 30.

Section Server.

Variable env : Env.

(** [await] of a pending call: other handlers run meanwhile. *)
Definition await (p : Await) : M unit := modify (during env p).

(** *** loadChats (src/index.js 173-192) *)
Definition loadChats : M unit :=
  w <- get ;;
  match sock w with
  | None => ret tt
  | Some _ =>
      try (
        call CallGroupFetchAllParticipating ;;
        await AwaitGroups ;;
        groups <- lift (groupFetchAllParticipating env) ;;
        modify (with_chats
          (map (fun group =>
                  {| Chat.id := GroupMetadata.id group;
                     Chat.name := or_else (GroupMetadata.subject group) "Unknown";
                     Chat.isGroup := true;
                     Chat.timestamp := GroupMetadata.creation group;
                     Chat.lastMessage := None |}) groups))
      ) catch (fun _ => ret tt)
  end.

(** *** The [connection.update] handler (src/index.js 76-110) *)
Definition on_connection_update (phone : string) (update : ConnectionUpdate.t)
  : M unit :=
  (if truthy (ConnectionUpdate.qr update)
   then update_state (set_qr (ConnectionUpdate.qr update))
   else ret tt) ;;
  match ConnectionUpdate.connection update with
  | Some "close" =>
      let shouldReconnect :=
        negb (bool_decide (ConnectionUpdate.statusCode update = Some (loggedOut env))) in
      update_state (set_connected false) ;;
      update_state (set_connecting false) ;;
      if shouldReconnect then call (ScheduleReconnect phone 3000)
      else (update_state (set_error (Some "Logged out")) ;;
            modify (with_sock None))
  | Some "open" =>
      update_state (set_connected true) ;;
      update_state (set_connecting false) ;;
      update_state (set_pairingCode None) ;;
      update_state (set_qr None) ;;
      update_state (set_error None) ;;
      loadChats
  | _ => ret tt
  end.

(** *** The [messages.upsert] handler (src/index.js 116-143); [ingest] is
    the body of its [for] loop. *)
Definition ingest (msg : WAMessage.t) : M unit :=
  let chatId := WAMessage.remoteJid msg in
  ensure_array chatId ;;
  push_message chatId (messageData msg) "messagesStore[chatId]" ;;
  modify (fun w =>
    with_chats (updateChatWithMessage chatId (messageData msg) (chats w)) w).

Definition on_messages_upsert (messages : list WAMessage.t) (type : string)
  : M unit :=
  if String.eqb type "notify" then for_each messages ingest
  else ret tt.

(** *** connectToWhatsApp (src/index.js 53-170) *)
Definition connectToWhatsApp (phone : string) : M unit :=
  try (
    call CallUseMultiFileAuthState ;;
    await AwaitAuthState ;;
    registered <- lift (useMultiFileAuthState env) ;;
    call CallFetchLatestBaileysVersion ;;
    await AwaitVersion ;;
    lift (fetchLatestBaileysVersion env) ;;
    call CallMakeWASocket ;;
    s <- lift (makeWASocket env) ;;
    modify (with_sock (Some s)) ;;
    if truthy (Some phone) && negb registered then
      update_state (set_connecting true) ;;
      call (Sleep 2000) ;;
      await AwaitReady ;;
      try (
        w <- get ;;
        match sock w with
        | None =>
            throw "Cannot read properties of null (reading 'requestPairingCode')"
        | Some _ =>
            call (CallRequestPairingCode phone) ;;
            await AwaitPairingCode ;;
            code <- lift (requestPairingCode env phone) ;;
            update_state (set_pairingCode (Some code))
        end
      ) catch (fun err =>
        update_state (set_error (Some err)) ;;
        update_state (set_connecting false))
    else ret tt
  ) catch (fun error =>
    update_state (set_error (Some error)) ;;
    update_state (set_connecting false) ;;
    throw error).

End Server.

(** ** The HTTP handlers *)

(** How the [while] of the pairing endpoint is left. *)
Inductive LoopResult :=
| LoopDone                       (* the loop condition became false *)
| LoopReturn (r : Response).     (* a [return] inside the body *)

Definition string_of (v : option string) : string :=
  match v with Some s => s | None => "" end.

Definition pairing_instructions : string :=
  "Enter this code in WhatsApp: Settings → Linked Devices → Link a Device → Link with phone number".

Definition timeout_message : string :=
  "Timeout waiting for pairing code. Please try again.".

(** The [messageData] literal of the send endpoint (src/index.js 384-389). *)
Definition sent_record (env : Env) (sentId text : string) : Message.t :=
  {| Message.id := sentId;
     Message.body := text;
     Message.from := None;
     Message.timestamp := Date_now env / 1000;
     Message.isOutgoing := true;
     Message.type := None |}.

Section Routes.

Variable env : Env.

(** *** The poll loop of POST /api/request-pairing-code (src/index.js 269-291)

    [attempts] is the source's counter; [fuel] bounds the unfolding of the
    [while], and [None] is returned only when it is too small. *)
Fixpoint wait_for_pairing_code (fuel attempts : nat) : M (option LoopResult) :=
  w <- get ;;
  if negb (truthy (pairingCode (connectionState w)))
     && (attempts <? maxAttempts)%nat
  then
    match fuel with
    | O => ret None
    | S fuel' =>
        if truthy (error (connectionState w)) then
          ret (Some (LoopReturn
            (status_json 500 (Plain false (string_of (error (connectionState w)))))))
        else if connected (connectionState w) then
          ret (Some (LoopReturn (json (AlreadyConnected "Already connected"))))
        else
          call (Sleep 500) ;;
          await env (AwaitPoll attempts) ;;
          wait_for_pairing_code fuel' (S attempts)
    end
  else ret (Some LoopDone).

(** *** POST /api/request-pairing-code (src/index.js 240-316) *)

(** Lines 261-267: the state is prepared and the connection started. *)
Definition begin_pairing (cleanPhone : string) : M unit :=
  update_state (set_phoneNumber (Some cleanPhone)) ;;
  update_state (set_connecting true) ;;
  update_state (set_error None) ;;
  update_state (set_pairingCode None) ;;
  connectToWhatsApp env cleanPhone.

(** Lines 293-304: the response once the loop is left. *)
Definition final_response (c : ConnectionState) : Response :=
  if truthy (pairingCode c) then
    json (PairingCode (string_of (pairingCode c)) pairing_instructions)
  else
    status_json 408 (Plain false timeout_message).

(** Lines 269-304: the loop and the response after it. *)
Definition pairing_poll : M (option Response) :=
  r <- wait_for_pairing_code (S maxAttempts) 0 ;;
  match r with
  | None => ret None
  | Some (LoopReturn resp) => ret (Some resp)
  | Some LoopDone =>
      w <- get ;;
      ret (Some (final_response (connectionState w)))
  end.

Definition request_pairing_code (phone : JsonValue) : M (option Response) :=
  try (
    if negb (json_truthy phone) then
      ret (Some (status_json 400 (Plain false "Phone number is required")))
    else
      cleanPhone <-
        match phone with
        | JString s => ret (strip_non_digits s)
        | _ => throw "phoneNumber.replace is not a function"
        end ;;
      if (String.length cleanPhone <? 10)%nat then
        ret (Some (status_json 400 (Plain false "Invalid phone number format")))
      else
        begin_pairing cleanPhone ;;
        pairing_poll
  ) catch (fun error =>
    update_state (set_connecting false) ;;
    update_state (set_error (Some error)) ;;
    ret (Some (status_json 500
      (Plain false (or_else (Some error) "Failed to generate pairing code"))))).

(** *** GET /api/chats (src/index.js 319-331) *)
Definition get_chats : M Response :=
  w <- get ;;
  if negb (connected (connectionState w)) then ret not_connected
  else ret (json (ChatList (chats w))).

(** *** GET /api/chats/:chatId/messages (src/index.js 334-359) *)
Definition get_messages (chatId : string) : M Response :=
  w <- get ;;
  if negb (connected (connectionState w)) then ret not_connected
  else
    try (
      decodedChatId <- lift (decodeURIComponent env chatId) ;;
      let chatMessages :=
        match get_property (messagesStore w) decodedChatId with
        | Undefined => Array []
        | p => p
        end in
      ret (json (MessageList chatMessages))
    ) catch (fun error => ret (status_json 500 (Plain false error))).

(** *** POST /api/chats/:chatId/messages (src/index.js 362-407) *)
Definition post_message (chatId : string) (message : option string) : M Response :=
  w <- get ;;
  if negb (connected (connectionState w)) then ret not_connected
  else
    try (
      decodedChatId <- lift (decodeURIComponent env chatId) ;;
      if negb (truthy message) then
        ret (status_json 400 (Plain false "Message content is required"))
      else
        let text := string_of message in
        w1 <- get ;;
        match sock w1 with
        | None => throw "Cannot read properties of null (reading 'sendMessage')"
        | Some _ =>
            call (CallSendMessage decodedChatId text) ;;
            await env AwaitSend ;;
            sentId <- lift (sendMessage env decodedChatId text) ;;
            let messageData := sent_record env sentId text in
            ensure_array decodedChatId ;;
            push_message decodedChatId messageData "messagesStore[decodedChatId]" ;;
            ret (json (SentMessage messageData))
        end
    ) catch (fun error => ret (status_json 500 (Plain false error))).

(** *** GET /api/contacts (src/index.js 410-438) *)
Definition get_contacts : M Response :=
  w <- get ;;
  if negb (connected (connectionState w)) then ret not_connected
  else
    try (
      let contacts :=
        map (fun chat =>
               {| Contact.id := Chat.id chat;
                  Contact.name := Chat.name chat;
                  Contact.number := split_first "@" (Chat.id chat);
                  Contact.isGroup := Chat.isGroup chat |}) (chats w) in
      ret (json (ContactList contacts))
    ) catch (fun error => ret (status_json 500 (Plain false error))).

(** *** POST /api/disconnect (src/index.js 441-473) *)
Definition disconnect : M Response :=
  try (
    w <- get ;;
    match sock w with
    | Some _ =>
        call CallLogout ;;
        await env AwaitLogout ;;
        lift (logout env) ;;
        modify (with_sock None)
    | None => ret tt
    end ;;
    call CallExistsSync ;;
    (if existsSync env then
       call CallRmSync ;;
       lift (rmSync env) ;;
       call CallMkdirSync ;;
       lift (mkdirSync env)
     else ret tt) ;;
    modify (with_connectionState initialConnectionState) ;;
    modify (with_chats []) ;;
    modify (with_messagesStore ∅) ;;
    ret (json (Plain true "Disconnected successfully"))
  ) catch (fun error => ret (status_json 500 (Plain false error))).

End Routes.

(** ** The chat list *)

Definition new_chat (chatId : string) (message : Message.t) : Chat.t :=
  {| Chat.id := chatId;
     Chat.name := split_first "@" chatId;
     Chat.isGroup := endsWith chatId "@g.us";
     Chat.timestamp := Message.timestamp message;
     Chat.lastMessage :=
       Some {| LastMessage.body := Message.body message;
               LastMessage.timestamp := Message.timestamp message |} |}.

Definition touch_chat (message : Message.t) (c : Chat.t) : Chat.t :=
  {| Chat.id := Chat.id c;
     Chat.name := Chat.name c;
     Chat.isGroup := Chat.isGroup c;
     Chat.timestamp := Message.timestamp message;
     Chat.lastMessage :=
       Some {| LastMessage.body := Message.body message;
               LastMessage.timestamp := Message.timestamp message |} |}.

(** ** The order the specification gives the chat list *)

(** Most recently active first: of two entries, the one with the more recent
    timestamp sits earlier. *)
Definition most_recent_first (cs : list Chat.t) : Prop :=
  forall i j ci cj,
    cs !! i = Some ci -> cs !! j = Some cj ->
    Chat.timestamp cj < Chat.timestamp ci -> (i < j)%nat.

(** ** A concrete environment for the examples *)

Definition hex_value (c : ascii) : option nat :=
  let n := nat_of_ascii c in
  if ((48 <=? n) && (n <=? 57))%nat then Some (n - 48)%nat
  else if ((65 <=? n) && (n <=? 70))%nat then Some (n - 55)%nat
  else if ((97 <=? n) && (n <=? 102))%nat then Some (n - 87)%nat
  else None.

(** [decodeURIComponent] for the example environments, right on strings
    whose escapes are all below [%80]: an escape that is cut short or is not
    hexadecimal throws [URIError].  The escapes from [%80] on, which the
    built-in decodes when they spell well-formed UTF-8, are not handled
    here and throw as well; no example uses one. *)
Fixpoint percent_decode (s : string) : outcome string :=
  match s with
  | EmptyString => Returned EmptyString
  | String "%" (String h (String l rest)) =>
      match hex_value h, hex_value l with
      | Some a, Some b =>
          if (16 * a + b <? 128)%nat then
            match percent_decode rest with
            | Returned r => Returned (String (ascii_of_nat (16 * a + b)) r)
            | Thrown e => Thrown e
            end
          else Thrown "URI malformed"
      | _, _ => Thrown "URI malformed"
      end
  | String "%" _ => Thrown "URI malformed"
  | String c rest =>
      match percent_decode rest with
      | Returned r => Returned (String c r)
      | Thrown e => Thrown e
      end
  end.

(** Every call succeeds and no other handler runs at the suspension points. *)
Definition exampleEnv : Env :=
  {| useMultiFileAuthState := Returned false;
     fetchLatestBaileysVersion := Returned tt;
     makeWASocket := Returned 1%nat;
     requestPairingCode := fun _ => Returned "ABCD1234";
     sendMessage := fun _ _ => Returned "3EB0C7";
     logout := Returned tt;
     groupFetchAllParticipating := Returned [];
     loggedOut := 401;
     existsSync := true;
     rmSync := Returned tt;
     mkdirSync := Returned tt;
     Date_now := 1700000000123;
     decodeURIComponent := percent_decode;
     during := fun _ w => w |}.

Definition inbound (jid id text : string) (ts : Z) : WAMessage.t :=
  {| WAMessage.remoteJid := jid;
     WAMessage.id := id;
     WAMessage.fromMe := false;
     WAMessage.message := Some [conversation (Some text)];
     WAMessage.messageTimestamp := ts |}.

(** Alice writes, then Bob, then Alice again. *)
Definition alice_bob_alice : list WAMessage.t :=
  [ inbound "491700000001@s.whatsapp.net" "A1" "hi" 1000;
    inbound "491700000002@s.whatsapp.net" "B1" "hello" 2000;
    inbound "491700000001@s.whatsapp.net" "A2" "are you there?" 3000 ].

(** ** The message cache, and the body the specification asks for *)

(** The messages cached for a chat id; none when the id has no own property. *)
Definition cached (w : World) (chatId : string) : list Message.t :=
  default [] (messagesStore w !! chatId).

(** The first populated field of a list of fields. *)
Fixpoint first_populated (fields : list (option string)) : option string :=
  match fields with
  | [] => None
  | f :: rest => if truthy f then f else first_populated rest
  end.

(** The body in the specification's words: the first populated field among
    plain text, extended text and image caption, else the placeholder. *)
Definition body_of_first_populated (msg : WAMessage.t) : string :=
  match first_populated
          [msg_conversation msg; msg_extended_text msg; msg_image_caption msg] with
  | Some s => s
  | None => "[Media]"
  end.

(** The state in which [ingest] leaves the world when it does not throw. *)
Definition ingested (msg : WAMessage.t) (w : World) : World :=
  {| sock := sock w;
     connectionState := connectionState w;
     chats := updateChatWithMessage (WAMessage.remoteJid msg) (messageData msg) (chats w);
     messagesStore :=
       <[WAMessage.remoteJid msg := (cached w (WAMessage.remoteJid msg) ++ [messageData msg])%list]>
         (messagesStore w) |}.

(** ** The ticks of the pairing poll *)

(** The state the poll finds after [k] more waits, when it stands at attempt
    [a] in state [w]: each wait lets the other handlers run. *)
Fixpoint ticks (env : Env) (a : nat) (w : World) (k : nat) : World :=
  match k with
  | O => w
  | S k' => ticks env (S a) (during env (AwaitPoll a) w) k'
  end.

(** What one tick decides, in the specification's order: a populated pairing
    code, then a recorded error, then a connected state; [None] when the poll
    goes on. *)
Definition tick_outcome (c : ConnectionState) : option Response :=
  if truthy (pairingCode c) then
    Some (json (PairingCode (string_of (pairingCode c)) pairing_instructions))
  else if truthy (error c) then
    Some (status_json 500 (Plain false (string_of (error c))))
  else if connected c then
    Some (json (AlreadyConnected "Already connected"))
  else None.

(** The response of a poll that is left at tick [n]: what that tick decides
    when it is one of the [maxAttempts] ticks of the loop; after the last
    wait only the pairing code is looked at. *)
Definition poll_response (n : nat) (c : ConnectionState) : Response :=
  if (n <? maxAttempts)%nat then
    match tick_outcome c with
    | Some resp => resp
    | None => final_response c
    end
  else final_response c.

(** A session that is registered but has been revoked: the close event with
    the logged-out status arrives during the last wait of the poll. *)
Definition lateLogoutEnv : Env :=
  {| useMultiFileAuthState := Returned true;
     fetchLatestBaileysVersion := Returned tt;
     makeWASocket := Returned 1%nat;
     requestPairingCode := fun _ => Returned "ABCD1234";
     sendMessage := fun _ _ => Returned "3EB0C7";
     logout := Returned tt;
     groupFetchAllParticipating := Returned [];
     loggedOut := 401;
     existsSync := true;
     rmSync := Returned tt;
     mkdirSync := Returned tt;
     Date_now := 1700000000123;
     decodeURIComponent := percent_decode;
     during := fun a w =>
       match a with
       | AwaitPoll 29 =>
           world_after
             (on_connection_update exampleEnv "491700000001"
                {| ConnectionUpdate.connection := Some "close";
                   ConnectionUpdate.statusCode := Some 401;
                   ConnectionUpdate.qr := None |} w)
       | _ => w
       end |}.

(** The session is already registered, so no pairing code is requested, and
    nothing happens while the poll waits. *)
Definition registeredEnv : Env :=
  {| useMultiFileAuthState := Returned true;
     fetchLatestBaileysVersion := Returned tt;
     makeWASocket := Returned 1%nat;
     requestPairingCode := fun _ => Returned "ABCD1234";
     sendMessage := fun _ _ => Returned "3EB0C7";
     logout := Returned tt;
     groupFetchAllParticipating := Returned [];
     loggedOut := 401;
     existsSync := true;
     rmSync := Returned tt;
     mkdirSync := Returned tt;
     Date_now := 1700000000123;
     decodeURIComponent := percent_decode;
     during := fun _ w => w |}.

(** The client's logout call fails. *)
Definition failingLogoutEnv : Env :=
  {| useMultiFileAuthState := Returned true;
     fetchLatestBaileysVersion := Returned tt;
     makeWASocket := Returned 1%nat;
     requestPairingCode := fun _ => Returned "ABCD1234";
     sendMessage := fun _ _ => Returned "3EB0C7";
     logout := Thrown "Connection Closed";
     groupFetchAllParticipating := Returned [];
     loggedOut := 401;
     existsSync := true;
     rmSync := Returned tt;
     mkdirSync := Returned tt;
     Date_now := 1700000000123;
     decodeURIComponent := percent_decode;
     during := fun _ w => w |}.

(** A connected server that has seen Alice, Bob and Alice again. *)
Definition connectedWorld : World :=
  world_after
    (on_messages_upsert alice_bob_alice "notify"
       {| sock := Some 1%nat;
          connectionState := set_connected true initialConnectionState;
          chats := [];
          messagesStore := ∅ |}).


(** ** Chat ids *)

(** A chat id is a JID, [user@server]. *)
Definition is_jid (s : string) : bool :=
  existsb (Ascii.eqb "@") (list_ascii_of_string s).

(** ** Running handlers *)

Ltac unfold_js :=
  unfold update_state, await in *;
  unfold bind, try_catch, ret, throw, get, modify, call, lift in *.

(** ** Strings of digits *)

Definition all_digits (s : string) : bool :=
  forallb is_digit (list_ascii_of_string s).

(** The chats a batch leaves when every message of it is ingested. *)
Definition chats_after (messages : list WAMessage.t) (chats : list Chat.t)
  : list Chat.t :=
  fold_left
    (fun cs msg => updateChatWithMessage (WAMessage.remoteJid msg) (messageData msg) cs)
    messages chats.

(** No other handler runs while this one is suspended. *)
Definition quiet (env : Env) : Prop := forall p w, during env p w = w.

(** The state after the messages of [done] have all been ingested. *)
Definition ingested_all (done : list WAMessage.t) (w : World) : World :=
  fold_left (fun w msg => ingested msg w) done w.

(** The chat entry [loadChats] builds for a group (src/index.js 180-186). *)
Definition group_chat (group : GroupMetadata.t) : Chat.t :=
  {| Chat.id := GroupMetadata.id group;
     Chat.name := or_else (GroupMetadata.subject group) "Unknown";
     Chat.isGroup := true;
     Chat.timestamp := GroupMetadata.creation group;
     Chat.lastMessage := None |}.

(** [connectionState] once the [open] branch has assigned its five fields. *)
Definition opened (c : ConnectionState) : ConnectionState :=
  {| connected := true; connecting := false; pairingCode := None;
     phoneNumber := phoneNumber c; error := None; qr := None |}.

(** The first of the three set-up calls of [connectToWhatsApp] that throws. *)
Definition setup_failure (env : Env) : option string :=
  match useMultiFileAuthState env with
  | Thrown e => Some e
  | Returned _ =>
      match fetchLatestBaileysVersion env with
      | Thrown e => Some e
      | Returned _ =>
          match makeWASocket env with
          | Thrown e => Some e
          | Returned _ => None
          end
      end
  end.

(** The group list cannot be fetched. *)
Definition noGroupsEnv : Env :=
  {| useMultiFileAuthState := Returned true;
     fetchLatestBaileysVersion := Returned tt;
     makeWASocket := Returned 1%nat;
     requestPairingCode := fun _ => Thrown "rate-overlimit";
     sendMessage := fun _ _ => Thrown "Connection Closed";
     logout := Returned tt;
     groupFetchAllParticipating := Thrown "Timed Out";
     loggedOut := 401;
     existsSync := true;
     rmSync := Thrown "EBUSY: resource busy or locked";
     mkdirSync := Returned tt;
     Date_now := 1700000000123;
     decodeURIComponent := percent_decode;
     during := fun _ w => w |}.

(** Two groups, as the client lists them. *)
Definition twoGroupsEnv : Env :=
  {| useMultiFileAuthState := Returned false;
     fetchLatestBaileysVersion := Returned tt;
     makeWASocket := Returned 1%nat;
     requestPairingCode := fun _ => Thrown "rate-overlimit";
     sendMessage := fun _ _ => Returned "3EB0C7";
     logout := Returned tt;
     groupFetchAllParticipating :=
       Returned [ GroupMetadata.mk "120363041234567890@g.us" (Some "Family") 1600000000;
                  GroupMetadata.mk "120363049876543210@g.us" None 1650000000 ];
     loggedOut := 401;
     existsSync := true;
     rmSync := Returned tt;
     mkdirSync := Returned tt;
     Date_now := 1700000000123;
     decodeURIComponent := percent_decode;
     during := fun _ w => w |}.

(** The auth state cannot be read. *)
Definition noAuthEnv : Env :=
  {| useMultiFileAuthState := Thrown "EACCES: permission denied";
     fetchLatestBaileysVersion := Returned tt;
     makeWASocket := Returned 1%nat;
     requestPairingCode := fun _ => Returned "ABCD1234";
     sendMessage := fun _ _ => Returned "3EB0C7";
     logout := Returned tt;
     groupFetchAllParticipating := Returned [];
     loggedOut := 401;
     existsSync := true;
     rmSync := Returned tt;
     mkdirSync := Returned tt;
     Date_now := 1700000000123;
     decodeURIComponent := percent_decode;
     during := fun _ w => w |}.

Definition open_update : ConnectionUpdate.t :=
  {| ConnectionUpdate.connection := Some "open";
     ConnectionUpdate.statusCode := None;
     ConnectionUpdate.qr := None |}.

Definition close_update (code : option Z) : ConnectionUpdate.t :=
  {| ConnectionUpdate.connection := Some "close";
     ConnectionUpdate.statusCode := code;
     ConnectionUpdate.qr := None |}.

(** The state when [connectToWhatsApp] is called by the pairing endpoint
    (src/index.js 261-264). *)
Definition prepared (cleanPhone : string) (w : World) : World :=
  with_connectionState
    {| connected := connected (connectionState w);
       connecting := true;
       pairingCode := None;
       phoneNumber := Some cleanPhone;
       error := None;
       qr := qr (connectionState w) |} w.

(** The calls of [connectToWhatsApp] for a session that is not registered. *)
Definition pairing_calls (cleanPhone : string) : list Call :=
  [ CallUseMultiFileAuthState; CallFetchLatestBaileysVersion; CallMakeWASocket;
    Sleep 2000; CallRequestPairingCode cleanPhone ].

(** The pairing code request is refused. *)
Definition refusedEnv : Env :=
  {| useMultiFileAuthState := Returned false;
     fetchLatestBaileysVersion := Returned tt;
     makeWASocket := Returned 1%nat;
     requestPairingCode := fun _ => Thrown "rate-overlimit";
     sendMessage := fun _ _ => Thrown "Connection Closed";
     logout := Returned tt;
     groupFetchAllParticipating := Returned [];
     loggedOut := 401;
     existsSync := true;
     rmSync := Thrown "EBUSY: resource busy or locked";
     mkdirSync := Returned tt;
     Date_now := 1700000000123;
     decodeURIComponent := percent_decode;
     during := fun _ w => w |}.

(** ** The members of a message object, read off the object itself *)

(** The entry that holds the plain text, the extended text or the image
    caption, with what it holds. *)
Definition plain_text_entry (f : MessageField) : option (option string) :=
  match f with conversation t => Some t | _ => None end.
Definition extended_text_entry (f : MessageField) : option (option string) :=
  match f with extendedTextMessage t => Some t | _ => None end.
Definition image_caption_entry (f : MessageField) : option (option string) :=
  match f with imageMessage c => Some c | _ => None end.

(** [member_text entry fields v]: the object with the entries [fields] holds
    [v] in the member that [entry] selects; [v] is [None] when the object has
    no such member. *)
Inductive member_text (entry : MessageField -> option (option string))
  : list MessageField -> option string -> Prop :=
| member_absent fields :
    Forall (fun f => entry f = None) fields ->
    member_text entry fields None
| member_present pre f post v :
    Forall (fun g => entry g = None) pre ->
    entry f = Some v ->
    member_text entry (pre ++ f :: post)%list v.

(** The plain text, the extended text and the image caption of an inbound
    message; all three are absent when the message has no content object. *)
Definition content_of (msg : WAMessage.t) (plain ext cap : option string) : Prop :=
  match WAMessage.message msg with
  | None => plain = None /\ ext = None /\ cap = None
  | Some fields =>
      member_text plain_text_entry fields plain /\
      member_text extended_text_entry fields ext /\
      member_text image_caption_entry fields cap
  end.

(** One chat sends a text, a link after an empty text, a captioned image, a
    video and an image without caption. *)
Definition mixed_batch : list WAMessage.t :=
  [ inbound "491700000001@s.whatsapp.net" "M1" "hi" 1000;
    {| WAMessage.remoteJid := "491700000001@s.whatsapp.net";
       WAMessage.id := "M2"; WAMessage.fromMe := false;
       WAMessage.message :=
         Some [conversation (Some ""); extendedTextMessage (Some "see https://example.org")];
       WAMessage.messageTimestamp := 2000 |};
    {| WAMessage.remoteJid := "491700000001@s.whatsapp.net";
       WAMessage.id := "M3"; WAMessage.fromMe := false;
       WAMessage.message :=
         Some [otherMessage "messageContextInfo"; imageMessage (Some "the lake")];
       WAMessage.messageTimestamp := 3000 |};
    {| WAMessage.remoteJid := "491700000001@s.whatsapp.net";
       WAMessage.id := "M4"; WAMessage.fromMe := false;
       WAMessage.message := Some [otherMessage "videoMessage"];
       WAMessage.messageTimestamp := 4000 |};
    {| WAMessage.remoteJid := "491700000001@s.whatsapp.net";
       WAMessage.id := "M5"; WAMessage.fromMe := false;
       WAMessage.message := Some [imageMessage None];
       WAMessage.messageTimestamp := 5000 |} ].

(** * Properties *)

Lemma find_chat_absent chatId (cs : list Chat.t) :
  chatId ∉ map Chat.id cs -> find_chat chatId cs = None.
Proof.
  intros Hnot. unfold find_chat. apply list_find_None.
  apply Forall_forall. intros c Hc Heq. apply Hnot.
  rewrite <- Heq. apply list_elem_of_fmap_2. exact Hc.
Qed.

Lemma find_chat_present chatId (cs : list Chat.t) :
  chatId ∈ map Chat.id cs ->
  exists i c, find_chat chatId cs = Some (i, c) /\ cs !! i = Some c /\ Chat.id c = chatId.
Proof.
  intros Hin. apply list_elem_of_fmap in Hin as (c & Heq & Hc).
  destruct (list_find_elem_of (fun c => Chat.id c = chatId) cs c Hc (eq_sym Heq))
    as [[i c'] Hfind].
  exists i, c'. split; [exact Hfind|].
  apply list_find_Some in Hfind as (Hl & HP & _). auto.
Qed.

Lemma update_absent chatId m (cs : list Chat.t) :
  chatId ∉ map Chat.id cs ->
  updateChatWithMessage chatId m cs = new_chat chatId m :: cs.
Proof.
  intros H. unfold updateChatWithMessage. rewrite (find_chat_absent _ _ H).
  reflexivity.
Qed.

Lemma update_present chatId m (cs : list Chat.t) :
  chatId ∈ map Chat.id cs ->
  exists i c, cs !! i = Some c /\ Chat.id c = chatId /\
    (forall j c', cs !! j = Some c' -> (j < i)%nat -> Chat.id c' <> chatId) /\
    updateChatWithMessage chatId m cs = <[i := touch_chat m c]> cs.
Proof.
  intros Hin. destruct (find_chat_present _ _ Hin) as (i & c & Hfind & Hl & Hid).
  exists i, c. split; [exact Hl|]. split; [exact Hid|]. split.
  - unfold find_chat in Hfind. apply list_find_Some in Hfind as (_ & _ & Hmin).
    exact Hmin.
  - unfold updateChatWithMessage. rewrite Hfind. reflexivity.
Qed.

Lemma update_ids_present chatId m (cs : list Chat.t) :
  chatId ∈ map Chat.id cs ->
  map Chat.id (updateChatWithMessage chatId m cs) = map Chat.id cs.
Proof.
  intros Hin. destruct (update_present chatId m cs Hin) as (i & c & Hl & Hid & _ & ->).
  change (map Chat.id) with (fmap (M:=list) Chat.id).
  rewrite list_fmap_insert. simpl.
  apply list_insert_id. rewrite list_lookup_fmap, Hl. reflexivity.
Qed.

(** [C6] Two inbound messages for a chat id that is not in the list leave
    exactly one entry with that id, and its [lastMessage] has the body and
    the timestamp of the second message. *)
Theorem chat_insertion_idempotent chatId (m1 m2 : Message.t) (cs : list Chat.t) :
  chatId ∉ map Chat.id cs ->
  exists entry,
    filter (fun c => Chat.id c = chatId)
      (updateChatWithMessage chatId m2 (updateChatWithMessage chatId m1 cs))
    = [entry] /\
    Chat.lastMessage entry =
      Some {| LastMessage.body := Message.body m2;
              LastMessage.timestamp := Message.timestamp m2 |}.
Proof.
  intros Hnot. rewrite (update_absent _ m1 _ Hnot).
  assert (Hsecond : updateChatWithMessage chatId m2 (new_chat chatId m1 :: cs)
                    = touch_chat m2 (new_chat chatId m1) :: cs).
  { unfold updateChatWithMessage, find_chat. simpl.
    destruct (decide (chatId = chatId)) as [_|Hne]; [reflexivity | congruence]. }
  rewrite Hsecond. exists (touch_chat m2 (new_chat chatId m1)). split; [|reflexivity].
  rewrite filter_cons_True by reflexivity. f_equal.
  clear Hsecond. induction cs as [|c cs IH]; [reflexivity|].
  simpl in Hnot. apply not_elem_of_cons in Hnot as [Hne Hnot].
  rewrite filter_cons_False by (intros Heq; apply Hne; symmetry; exact Heq).
  apply IH. exact Hnot.
Qed.

Lemma chat_insertion_idempotent_witness :
  exists entry,
    filter (fun c => Chat.id c = "491700000001@s.whatsapp.net")
      (updateChatWithMessage "491700000001@s.whatsapp.net"
         (messageData (inbound "491700000001@s.whatsapp.net" "A2" "again" 3000))
         (updateChatWithMessage "491700000001@s.whatsapp.net"
            (messageData (inbound "491700000001@s.whatsapp.net" "A1" "hi" 1000))
            [new_chat "491700000002@s.whatsapp.net"
               (messageData (inbound "491700000002@s.whatsapp.net" "B1" "hello" 2000))]))
    = [entry] /\
    Chat.lastMessage entry =
      Some {| LastMessage.body := "again"; LastMessage.timestamp := 3000 |}.
Proof.
  apply (chat_insertion_idempotent "491700000001@s.whatsapp.net"
           (messageData (inbound "491700000001@s.whatsapp.net" "A1" "hi" 1000))
           (messageData (inbound "491700000001@s.whatsapp.net" "A2" "again" 3000))).
  apply (bool_decide_unpack _). vm_compute. exact I.
Defined.

Example alice_bob_alice_chats :
  map (fun c => (Chat.id c, Chat.timestamp c))
      (chats (world_after
                (on_messages_upsert alice_bob_alice "notify" initialWorld)))
  = [ ("491700000002@s.whatsapp.net", 2000);
      ("491700000001@s.whatsapp.net", 3000) ].
Proof. vm_compute. reflexivity. Qed.

(** [C7], as stated, fails: after Alice, Bob, Alice the list is Bob, Alice,
    although Alice's entry carries the more recent timestamp. *)
Lemma most_recent_first_fails :
  ~ most_recent_first
      (chats (world_after
                (on_messages_upsert alice_bob_alice "notify" initialWorld))).
Proof.
  intros H.
  assert (Hlt : (1 < 0)%nat).
  { eapply (H 1%nat 0%nat); [vm_compute; reflexivity | vm_compute; reflexivity |].
    vm_compute. reflexivity. }
  lia.
Qed.

(** [C7], amended: a chat id that is new is inserted at the front; a chat
    that is already listed keeps its position, and only its [lastMessage] and
    [timestamp] change.  The list is in order of first appearance. *)
Theorem chat_list_first_seen_order chatId (m : Message.t) (cs : list Chat.t) :
  if bool_decide (chatId ∈ map Chat.id cs)
  then map Chat.id (updateChatWithMessage chatId m cs) = map Chat.id cs /\
       exists i c, cs !! i = Some c /\ Chat.id c = chatId /\
         updateChatWithMessage chatId m cs = <[i := touch_chat m c]> cs
  else updateChatWithMessage chatId m cs = new_chat chatId m :: cs.
Proof.
  case_bool_decide as Hin.
  - split; [apply update_ids_present; exact Hin|].
    destruct (update_present chatId m cs Hin) as (i & c & Hl & Hid & _ & Hupd).
    exists i, c. auto.
  - apply update_absent. exact Hin.
Qed.

(** ** Message ingestion *)

Lemma body_first_populated msg :
  Message.body (messageData msg) = body_of_first_populated msg.
Proof.
  unfold messageData, body_of_first_populated, or_opt, or_else. simpl.
  generalize (msg_conversation msg) (msg_extended_text msg) (msg_image_caption msg).
  intros a b c. unfold truthy.
  destruct a as [a|], b as [b|], c as [c|]; simpl;
    repeat match goal with
           | |- context [String.eqb ?x ""] =>
               destruct (String.eqb x "") eqn:?; simpl
           end;
    try reflexivity; congruence.
Qed.

Lemma ingest_run msg w :
  ingest msg w =
    match messagesStore w !! WAMessage.remoteJid msg with
    | None =>
        if is_prototype_key (WAMessage.remoteJid msg)
        then (Thrown "messagesStore[chatId].push is not a function", w, [])
        else (Returned tt, ingested msg w, [])
    | Some _ => (Returned tt, ingested msg w, [])
    end.
Proof.
  unfold ingest, ingested, cached, ensure_array, push_message, get_property.
  unfold_js.
  destruct w as [s c cs store]. simpl.
  destruct (store !! WAMessage.remoteJid msg) as [l|] eqn:Hl; simpl.
  - rewrite ?Hl. reflexivity.
  - destruct (is_prototype_key (WAMessage.remoteJid msg)) eqn:Hp; simpl.
    + rewrite ?Hl, ?Hp. reflexivity.
    + rewrite ?lookup_insert_eq. simpl. rewrite ?insert_insert_eq. reflexivity.
Qed.

Lemma cached_ingested msg w chatId :
  cached (ingested msg w) chatId =
    if decide (WAMessage.remoteJid msg = chatId)
    then (cached w chatId ++ [messageData msg])%list
    else cached w chatId.
Proof.
  unfold cached, ingested. simpl. rewrite lookup_insert.
  destruct (decide (WAMessage.remoteJid msg = chatId)) as [->|Hne]; reflexivity.
Qed.

Lemma for_each_cons {A} (x : A) (rest : list A) (f : A -> M unit) w :
  for_each (x :: rest) f w =
    match f x w with
    | (Returned _, w1, t1) =>
        match for_each rest f w1 with (o, w2, t2) => (o, w2, (t1 ++ t2)%list) end
    | (Thrown e, w1, t1) => (Thrown e, w1, t1)
    end.
Proof. reflexivity. Qed.

Lemma for_each_ingest_cached msgs : forall w,
  result (for_each msgs ingest w) = Returned tt ->
  forall chatId,
    cached (world_after (for_each msgs ingest w)) chatId =
      (cached w chatId ++
       map messageData (filter (fun m => WAMessage.remoteJid m = chatId) msgs))%list.
Proof.
  induction msgs as [|msg rest IH]; intros w Hres chatId.
  - cbn. rewrite ?app_nil_r. reflexivity.
  - rewrite for_each_cons in *. rewrite ingest_run in *.
    assert (Hstep :
      result (for_each rest ingest (ingested msg w)) = Returned tt /\
      world_after
        (match for_each rest ingest (ingested msg w) with
         | (o, w2, t2) => (o, w2, ([] ++ t2)%list)
         end) = world_after (for_each rest ingest (ingested msg w)) /\
      (match messagesStore w !! WAMessage.remoteJid msg with
       | Some _ => (Returned (), ingested msg w, [])
       | None =>
           if is_prototype_key (WAMessage.remoteJid msg)
           then (Thrown "messagesStore[chatId].push is not a function", w, [])
           else (Returned (), ingested msg w, [])
       end) = (Returned (), ingested msg w, @nil Call)).
    { destruct (messagesStore w !! WAMessage.remoteJid msg);
        [|destruct (is_prototype_key (WAMessage.remoteJid msg)); [discriminate Hres|]];
        destruct (for_each rest ingest (ingested msg w)) as [[o w2] t2];
        simpl in *; auto. }
    destruct Hstep as (Hrest & Hw & Hrun). rewrite Hrun. rewrite Hw.
    rewrite (IH _ Hrest chatId). rewrite cached_ingested.
    destruct (decide (WAMessage.remoteJid msg = chatId)) as [Heq|Hne].
    + rewrite filter_cons_True by exact Heq. simpl. rewrite <- app_assoc. reflexivity.
    + rewrite filter_cons_False by exact Hne. reflexivity.
Qed.

Lemma member_text_total entry fields : exists v, member_text entry fields v.
Proof.
  induction fields as [|f fields [v IH]].
  - exists None. apply member_absent. constructor.
  - destruct (entry f) as [u|] eqn:Hf.
    + exists u. apply (member_present entry [] f fields u); [constructor | exact Hf].
    + exists v. inversion IH as [fs Hall | pre g post u Hpre Hg]; subst.
      * apply member_absent. constructor; assumption.
      * apply (member_present entry (f :: pre) g post v); [constructor; assumption | exact Hg].
Qed.

Lemma content_of_total msg : exists plain ext cap, content_of msg plain ext cap.
Proof.
  unfold content_of. destruct (WAMessage.message msg) as [fields|].
  - destruct (member_text_total plain_text_entry fields) as [a Ha].
    destruct (member_text_total extended_text_entry fields) as [b Hb].
    destruct (member_text_total image_caption_entry fields) as [c Hc].
    exists a, b, c. auto.
  - exists None, None, None. auto.
Qed.

Lemma get_conversation_member fields v :
  member_text plain_text_entry fields v -> get_conversation fields = v.
Proof.
  intros H. destruct H as [fields Hall | pre f post v Hpre Hf].
  - induction Hall as [|f fields Hf _ IH]; [reflexivity|].
    destruct f; simpl in *; try discriminate Hf; exact IH.
  - induction Hpre as [|g pre Hg _ IH].
    + destruct f; simpl in *; try discriminate Hf. injection Hf as ->. reflexivity.
    + destruct g; simpl in *; try discriminate Hg; exact IH.
Qed.

Lemma get_extended_text_member fields v :
  member_text extended_text_entry fields v -> get_extended_text fields = v.
Proof.
  intros H. destruct H as [fields Hall | pre f post v Hpre Hf].
  - induction Hall as [|f fields Hf _ IH]; [reflexivity|].
    destruct f; simpl in *; try discriminate Hf; exact IH.
  - induction Hpre as [|g pre Hg _ IH].
    + destruct f; simpl in *; try discriminate Hf. injection Hf as ->. reflexivity.
    + destruct g; simpl in *; try discriminate Hg; exact IH.
Qed.

Lemma get_image_caption_member fields v :
  member_text image_caption_entry fields v -> get_image_caption fields = v.
Proof.
  intros H. destruct H as [fields Hall | pre f post v Hpre Hf].
  - induction Hall as [|f fields Hf _ IH]; [reflexivity|].
    destruct f; simpl in *; try discriminate Hf; exact IH.
  - induction Hpre as [|g pre Hg _ IH].
    + destruct f; simpl in *; try discriminate Hf. injection Hf as ->. reflexivity.
    + destruct g; simpl in *; try discriminate Hg; exact IH.
Qed.

Lemma body_of_content msg plain ext cap :
  content_of msg plain ext cap ->
  Message.body (messageData msg) =
    match first_populated [plain; ext; cap] with
    | Some s => s
    | None => "[Media]"
    end.
Proof.
  intros Hcontent. rewrite body_first_populated.
  unfold body_of_first_populated, msg_conversation, msg_extended_text,
    msg_image_caption.
  unfold content_of in Hcontent.
  destruct (WAMessage.message msg) as [fields|].
  - destruct Hcontent as (Ha & Hb & Hc).
    rewrite (get_conversation_member _ _ Ha), (get_extended_text_member _ _ Hb),
      (get_image_caption_member _ _ Hc). reflexivity.
  - destruct Hcontent as (-> & -> & ->). reflexivity.
Qed.

(** [C8] When the handler has run through a live batch, each chat's cache is
    what it was, followed by the records of the batch's messages for that
    chat in order.  For every message of the batch, with the plain text, the
    extended text and the image caption that its content object holds (each
    absent when the object has no such member, all absent when there is no
    content object), the body of its record is the first populated of the
    three in this order, and the placeholder [[Media]] when none of them is
    populated. *)
Theorem inbound_body_first_populated (messages : list WAMessage.t) (w : World) :
  result (on_messages_upsert messages "notify" w) = Returned tt ->
  (forall chatId,
     cached (world_after (on_messages_upsert messages "notify" w)) chatId =
       (cached w chatId ++
        map messageData
          (filter (fun m => WAMessage.remoteJid m = chatId) messages))%list) /\
  (forall msg, msg ∈ messages ->
     (exists plain ext cap, content_of msg plain ext cap) /\
     (forall plain ext cap,
        content_of msg plain ext cap ->
        Message.body (messageData msg) =
          match first_populated [plain; ext; cap] with
          | Some s => s
          | None => "[Media]"
          end)).
Proof.
  unfold on_messages_upsert. simpl. intros Hres. split.
  - apply for_each_ingest_cached. exact Hres.
  - intros msg _. split; [apply content_of_total|].
    intros plain ext cap Hcontent. apply body_of_content. exact Hcontent.
Qed.

(** ** The pairing poll *)

Lemma tick_outcome_None c :
  tick_outcome c = None <->
  truthy (pairingCode c) = false /\ truthy (error c) = false /\ connected c = false.
Proof.
  unfold tick_outcome.
  destruct (truthy (pairingCode c)), (truthy (error c)), (connected c);
    split; intros H; try discriminate; try (destruct H as (? & ? & ?); discriminate);
    auto.
Qed.

Lemma wait_unfold env fuel a w :
  wait_for_pairing_code env fuel a w =
    if negb (truthy (pairingCode (connectionState w))) && (a <? maxAttempts)%nat
    then
      match fuel with
      | O => (Returned None, w, [])
      | S fuel' =>
          if truthy (error (connectionState w)) then
            (Returned (Some (LoopReturn
               (status_json 500 (Plain false (string_of (error (connectionState w))))))),
             w, [])
          else if connected (connectionState w) then
            (Returned (Some (LoopReturn (json (AlreadyConnected "Already connected")))),
             w, [])
          else
            match wait_for_pairing_code env fuel' (S a) (during env (AwaitPoll a) w) with
            | (o, w', t) => (o, w', Sleep 500 :: t)
            end
      end
    else (Returned (Some LoopDone), w, []).
Proof.
  destruct fuel; simpl; unfold_js; simpl.
  - destruct (negb (truthy (pairingCode (connectionState w))) && (a <? maxAttempts)%nat);
      reflexivity.
  - destruct (negb (truthy (pairingCode (connectionState w))) && (a <? maxAttempts)%nat);
      [|reflexivity].
    destruct (truthy (error (connectionState w))); [reflexivity|].
    destruct (connected (connectionState w)); [reflexivity|].
    destruct (wait_for_pairing_code env fuel (S a) (during env (AwaitPoll a) w))
      as [[o w'] t].
    reflexivity.
Qed.

Lemma wait_runs env : forall k a fuel w,
  (a + k <= maxAttempts)%nat ->
  (forall j, (j < k)%nat -> tick_outcome (connectionState (ticks env a w j)) = None) ->
  wait_for_pairing_code env (k + fuel) a w =
    match wait_for_pairing_code env fuel (a + k) (ticks env a w k) with
    | (o, w', t) => (o, w', (repeat (Sleep 500) k ++ t)%list)
    end.
Proof.
  induction k as [|k IH]; intros a fuel w Hle Hnone.
  - simpl. rewrite Nat.add_0_r.
    destruct (wait_for_pairing_code env fuel a w) as [[o w'] t]. reflexivity.
  - pose proof (Hnone 0%nat ltac:(lia)) as H0. simpl in H0.
    apply tick_outcome_None in H0 as (Hc & He & Hn).
    change (S k + fuel)%nat with (S (k + fuel)).
    rewrite wait_unfold. rewrite Hc, He, Hn. simpl negb.
    replace (a <? maxAttempts)%nat with true by (symmetry; apply Nat.ltb_lt; lia).
    simpl andb. cbv iota.
    rewrite (IH (S a) fuel (during env (AwaitPoll a) w)).
    + replace (S a + k)%nat with (a + S k)%nat by lia. simpl ticks.
      destruct (wait_for_pairing_code env fuel (a + S k)
                  (ticks env (S a) (during env (AwaitPoll a) w) k)) as [[o w'] t].
      reflexivity.
    + lia.
    + intros j Hj. apply (Hnone (S j)). lia.
Qed.

Lemma first_tick env : forall r a w,
  exists n, (n <= r)%nat /\
    (forall j, (j < n)%nat -> tick_outcome (connectionState (ticks env a w j)) = None) /\
    ((n < r)%nat -> tick_outcome (connectionState (ticks env a w n)) <> None).
Proof.
  induction r as [|r IH]; intros a w.
  - exists 0%nat. split; [lia|]. split; intros; lia.
  - destruct (tick_outcome (connectionState w)) as [resp|] eqn:H0.
    + exists 0%nat. split; [lia|]. split; [intros; lia|].
      intros _. simpl. rewrite H0. discriminate.
    + destruct (IH (S a) (during env (AwaitPoll a) w)) as (n & Hle & Hnone & Hsome).
      exists (S n). split; [lia|]. split.
      * intros [|j] Hj; simpl; [exact H0 | apply Hnone; lia].
      * intros Hlt. simpl. apply Hsome. lia.
Qed.

(** The response of the poll when it is left at tick [n]. *)
Lemma pairing_poll_at env w n :
  (n <= maxAttempts)%nat ->
  (forall j, (j < n)%nat -> tick_outcome (connectionState (ticks env 0 w j)) = None) ->
  ((n < maxAttempts)%nat -> tick_outcome (connectionState (ticks env 0 w n)) <> None) ->
  pairing_poll env w =
    (Returned (Some (poll_response n (connectionState (ticks env 0 w n)))),
     ticks env 0 w n, repeat (Sleep 500) n).
Proof.
  intros Hle Hnone Hsome. unfold pairing_poll.
  replace (S maxAttempts) with (n + S (maxAttempts - n))%nat by lia.
  unfold bind at 1. rewrite (wait_runs env n 0%nat _ w Hle Hnone).
  simpl Nat.add. rewrite wait_unfold.
  set (wn := ticks env 0 w n) in *. clearbody wn. clear Hnone.
  unfold poll_response, tick_outcome, final_response in *.
  destruct (truthy (pairingCode (connectionState wn))) eqn:Hc; simpl.
  - unfold_js. simpl. rewrite ?Hc, ?app_nil_r.
    destruct (n <? maxAttempts)%nat; reflexivity.
  - destruct (n <? maxAttempts)%nat eqn:Hn; simpl.
    + apply Nat.ltb_lt in Hn. specialize (Hsome Hn).
      destruct (truthy (error (connectionState wn))) eqn:He.
      { unfold_js. simpl. rewrite ?app_nil_r. reflexivity. }
      destruct (connected (connectionState wn)) eqn:Hcon.
      { unfold_js. simpl. rewrite ?app_nil_r. reflexivity. }
      congruence.
    + unfold_js. simpl. rewrite ?Hc, ?app_nil_r. reflexivity.
Qed.

Lemma pairing_poll_total env w :
  exists n, (n <= maxAttempts)%nat /\
    (forall j, (j < n)%nat -> tick_outcome (connectionState (ticks env 0 w j)) = None) /\
    ((n < maxAttempts)%nat -> tick_outcome (connectionState (ticks env 0 w n)) <> None) /\
    pairing_poll env w =
      (Returned (Some (poll_response n (connectionState (ticks env 0 w n)))),
       ticks env 0 w n, repeat (Sleep 500) n).
Proof.
  destruct (first_tick env maxAttempts 0%nat w) as (n & Hle & Hnone & Hsome).
  exists n. repeat split; auto. apply pairing_poll_at; auto.
Qed.

Lemma strip_non_digits_empty s :
  (10 <= String.length (strip_non_digits s))%nat -> json_truthy (JString s) = true.
Proof. destruct s; simpl; [lia | reflexivity]. Qed.

(** A valid phone number whose connection attempt returns leads to the poll. *)
Lemma request_pairing_code_polls env w s :
  (10 <= String.length (strip_non_digits s))%nat ->
  result (begin_pairing env (strip_non_digits s) w) = Returned tt ->
  request_pairing_code env (JString s) w =
    match pairing_poll env (world_after (begin_pairing env (strip_non_digits s) w)) with
    | (o, w', t) =>
        (o, w', (calls (begin_pairing env (strip_non_digits s) w) ++ t)%list)
    end.
Proof.
  intros Hlen Hbegin. unfold request_pairing_code.
  rewrite (strip_non_digits_empty s Hlen). simpl negb. cbv iota.
  unfold try_catch, bind at 1, ret at 1. simpl.
  replace (String.length (strip_non_digits s) <? 10)%nat with false
    by (symmetry; apply Nat.ltb_ge; lia).
  unfold bind at 1.
  destruct (begin_pairing env (strip_non_digits s) w) as [[o w1] t1].
  unfold result, world_after, calls in *. simpl in *. subst o.
  destruct (pairing_poll_total env w1) as (n & _ & _ & _ & Hpoll).
  rewrite Hpoll. reflexivity.
Qed.

(** [C2], as stated, fails: the session is logged out during the last wait
    of the poll, so [connectionState.error] is non-null while the pairing
    code is absent and the state is not connected, and the endpoint answers
    408, not 500. *)
Lemma error_during_last_wait_is_a_timeout :
  let r := request_pairing_code lateLogoutEnv (JString "+49 170 0000001") initialWorld in
  error (connectionState (world_after r)) = Some "Logged out" /\
  pairingCode (connectionState (world_after r)) = None /\
  connected (connectionState (world_after r)) = false /\
  result r = Returned (Some (status_json 408 (Plain false timeout_message))) /\
  calls r =
    ([CallUseMultiFileAuthState; CallFetchLatestBaileysVersion; CallMakeWASocket]
       ++ repeat (Sleep 500) 30)%list.
Proof. vm_compute. repeat split; reflexivity. Qed.

(** [C2], amended: for a valid phone number whose connection attempt returns,
    the poll waits at most 30 times, 500 ms each, and is left at the first of
    its 30 ticks at which, in this order, the pairing code is populated
    (success response with the code), an error is recorded (500 with that
    error) or the state is connected (success, already connected); after the
    30th wait only the pairing code is looked at.  In particular an error
    that a tick finds, with the pairing code absent there and no earlier tick
    having ended the poll, is answered with 500 and that error's message. *)
Theorem pairing_poll_priority env w s :
  (10 <= String.length (strip_non_digits s))%nat ->
  result (begin_pairing env (strip_non_digits s) w) = Returned tt ->
  let w0 := world_after (begin_pairing env (strip_non_digits s) w) in
  (exists n, (n <= maxAttempts)%nat /\
     request_pairing_code env (JString s) w =
       (Returned (Some (poll_response n (connectionState (ticks env 0 w0 n)))),
        ticks env 0 w0 n,
        (calls (begin_pairing env (strip_non_digits s) w)
           ++ repeat (Sleep 500) n)%list) /\
     (forall j, (j < n)%nat ->
        tick_outcome (connectionState (ticks env 0 w0 j)) = None) /\
     ((n < maxAttempts)%nat ->
        tick_outcome (connectionState (ticks env 0 w0 n)) <> None)) /\
  (forall k e,
     (k < maxAttempts)%nat ->
     (forall j, (j < k)%nat ->
        tick_outcome (connectionState (ticks env 0 w0 j)) = None) ->
     truthy (pairingCode (connectionState (ticks env 0 w0 k))) = false ->
     error (connectionState (ticks env 0 w0 k)) = Some e -> e <> "" ->
     result (request_pairing_code env (JString s) w) =
       Returned (Some (status_json 500 (Plain false e)))).
Proof.
  intros Hlen Hbegin w0. split.
  - destruct (pairing_poll_total env w0) as (n & Hle & Hnone & Hsome & Hpoll).
    exists n. split; [exact Hle|]. split; [|split; assumption].
    rewrite (request_pairing_code_polls env w s Hlen Hbegin).
    fold w0. rewrite Hpoll. reflexivity.
  - intros k e Hk Hnone Hcode Herr Hne.
    rewrite (request_pairing_code_polls env w s Hlen Hbegin). fold w0.
    assert (Hout : tick_outcome (connectionState (ticks env 0 w0 k))
                   = Some (status_json 500 (Plain false e))).
    { unfold tick_outcome. rewrite Hcode, Herr. simpl.
      destruct (String.eqb e "") eqn:He; [apply String.eqb_eq in He; contradiction|].
      reflexivity. }
    rewrite (pairing_poll_at env w0 k); [| lia | exact Hnone | intros _; congruence].
    unfold poll_response.
    replace (k <? maxAttempts)%nat with true by (symmetry; apply Nat.ltb_lt; lia).
    rewrite Hout. reflexivity.
Qed.

Lemma pairing_poll_priority_witness :
  exists n, (n <= maxAttempts)%nat /\
    result (request_pairing_code exampleEnv (JString "+49 170 0000001") initialWorld) =
      Returned (Some (poll_response n
        (connectionState
           (ticks exampleEnv 0
              (world_after (begin_pairing exampleEnv "491700000001" initialWorld)) n)))).
Proof.
  destruct (pairing_poll_priority exampleEnv initialWorld "+49 170 0000001")
    as [(n & Hle & Hrun & _) _].
  - vm_compute. lia.
  - vm_compute. reflexivity.
  - exists n. split; [exact Hle|]. rewrite Hrun. reflexivity.
Defined.

(** [C3] For a valid phone number whose connection attempt returns: when the
    pairing code is not populated at any of the 31 times the poll looks at
    it, and no error is recorded and the state is not connected at any of
    its 30 ticks, the endpoint answers 408 with [success: false], after
    exactly 30 waits of 500 ms. *)
Theorem pairing_poll_timeout env w s :
  (10 <= String.length (strip_non_digits s))%nat ->
  result (begin_pairing env (strip_non_digits s) w) = Returned tt ->
  let w0 := world_after (begin_pairing env (strip_non_digits s) w) in
  (forall k, (k <= maxAttempts)%nat ->
     truthy (pairingCode (connectionState (ticks env 0 w0 k))) = false) ->
  (forall k, (k < maxAttempts)%nat ->
     truthy (error (connectionState (ticks env 0 w0 k))) = false) ->
  (forall k, (k < maxAttempts)%nat ->
     connected (connectionState (ticks env 0 w0 k)) = false) ->
  request_pairing_code env (JString s) w =
    (Returned (Some {| status := 408; body := Plain false timeout_message |}),
     ticks env 0 w0 maxAttempts,
     (calls (begin_pairing env (strip_non_digits s) w)
        ++ repeat (Sleep 500) maxAttempts)%list).
Proof.
  intros Hlen Hbegin w0 Hcode Herr Hcon.
  rewrite (request_pairing_code_polls env w s Hlen Hbegin). fold w0.
  rewrite (pairing_poll_at env w0 maxAttempts).
  - unfold poll_response, final_response. rewrite Nat.ltb_irrefl.
    rewrite (Hcode maxAttempts) by lia. reflexivity.
  - lia.
  - intros j Hj. apply tick_outcome_None.
    repeat split; [apply Hcode; lia | apply Herr; lia | apply Hcon; lia].
  - lia.
Qed.

Lemma pairing_poll_timeout_witness :
  request_pairing_code registeredEnv (JString "+49 170 0000001") initialWorld =
    (Returned (Some {| status := 408; body := Plain false timeout_message |}),
     ticks registeredEnv 0
       (world_after (begin_pairing registeredEnv "491700000001" initialWorld))
       maxAttempts,
     (calls (begin_pairing registeredEnv "491700000001" initialWorld)
        ++ repeat (Sleep 500) maxAttempts)%list).
Proof.
  apply (pairing_poll_timeout registeredEnv initialWorld "+49 170 0000001").
  - vm_compute. lia.
  - vm_compute. reflexivity.
  - intros k Hk. unfold maxAttempts in Hk.
    do 31 (destruct k as [|k]; [vm_compute; reflexivity|]). lia.
  - intros k Hk. unfold maxAttempts in Hk.
    do 30 (destruct k as [|k]; [vm_compute; reflexivity|]). lia.
  - intros k Hk. unfold maxAttempts in Hk.
    do 30 (destruct k as [|k]; [vm_compute; reflexivity|]). lia.
Defined.

(** ** Validation of the phone number *)




(** ** The endpoints that need a connection *)

(** [C9] While [connectionState.connected] is false, the four endpoints
    answer 503 with [{success: false, message: "WhatsApp not connected"}],
    make no call and leave the state as it was. *)
Theorem not_connected_503 env w chatId message :
  connected (connectionState w) = false ->
  let r503 := {| status := 503; body := Plain false "WhatsApp not connected" |} in
  get_chats w = (Returned r503, w, []) /\
  get_messages env chatId w = (Returned r503, w, []) /\
  post_message env chatId message w = (Returned r503, w, []) /\
  get_contacts w = (Returned r503, w, []).
Proof.
  intros Hc. unfold get_chats, get_messages, post_message, get_contacts.
  unfold_js. rewrite Hc. simpl. repeat split; reflexivity.
Qed.

Lemma not_connected_503_witness :
  let r503 := {| status := 503; body := Plain false "WhatsApp not connected" |} in
  get_chats initialWorld = (Returned r503, initialWorld, []) /\
  get_messages exampleEnv "491700000001%40s.whatsapp.net" initialWorld
    = (Returned r503, initialWorld, []) /\
  post_message exampleEnv "491700000001%40s.whatsapp.net" (Some "hi") initialWorld
    = (Returned r503, initialWorld, []) /\
  get_contacts initialWorld = (Returned r503, initialWorld, []).
Proof.
  apply (not_connected_503 exampleEnv initialWorld
           "491700000001%40s.whatsapp.net" (Some "hi")).
  reflexivity.
Defined.

(** *** Reading the cache *)

(** For a chat id that is not a member name of [Object.prototype], an id
    without cached messages is answered with the empty list. *)
Lemma get_messages_unknown env w chatId decoded :
  connected (connectionState w) = true ->
  decodeURIComponent env chatId = Returned decoded ->
  messagesStore w !! decoded = None ->
  is_prototype_key decoded = false ->
  get_messages env chatId w = (Returned (json (MessageList (Array []))), w, []).
Proof.
  intros Hc Hd Hnone Hp. unfold get_messages, get_property. unfold_js.
  rewrite Hc, Hd, Hnone, Hp. reflexivity.
Qed.

Lemma get_messages_cached env w chatId decoded l :
  connected (connectionState w) = true ->
  decodeURIComponent env chatId = Returned decoded ->
  messagesStore w !! decoded = Some l ->
  get_messages env chatId w = (Returned (json (MessageList (Array l))), w, []).
Proof.
  intros Hc Hd Hsome. unfold get_messages, get_property. unfold_js.
  rewrite Hc, Hd, Hsome. reflexivity.
Qed.

(** [C10] fails on the code: while connected, the chat id [constructor] has
    no cached messages, and the [messages] member of the response is not the
    empty list but the member that [messagesStore] inherits under this name. *)
Theorem get_messages_inherited_key :
  connected (connectionState connectedWorld) = true /\
  percent_decode "constructor" = Returned "constructor" /\
  messagesStore connectedWorld !! "constructor" = None /\
  get_messages exampleEnv "constructor" connectedWorld =
    (Returned {| status := 200; body := MessageList (ProtoMember "constructor") |},
     connectedWorld, []) /\
  get_messages exampleEnv "unknown@s.whatsapp.net" connectedWorld =
    (Returned {| status := 200; body := MessageList (Array []) |},
     connectedWorld, []).
Proof. vm_compute. repeat split; reflexivity. Qed.

(** *** Sending a message *)

(** For a chat id that is not a member name of [Object.prototype]: one
    record is appended to the chat's cache and carried by the response. *)
Lemma post_message_caches env w chatId decoded text sentId s :
  connected (connectionState w) = true ->
  decodeURIComponent env chatId = Returned decoded ->
  text <> "" ->
  sock w = Some s ->
  sendMessage env decoded text = Returned sentId ->
  is_prototype_key decoded = false ->
  let w1 := during env AwaitSend w in
  post_message env chatId (Some text) w =
    (Returned (json (SentMessage (sent_record env sentId text))),
     with_messagesStore
       (<[decoded := (cached w1 decoded ++ [sent_record env sentId text])%list]>
          (messagesStore w1)) w1,
     [CallSendMessage decoded text]).
Proof.
  intros Hc Hd Htext Hsock Hsend Hp w1.
  assert (Ht : String.eqb text "" = false).
  { destruct (String.eqb text "") eqn:He; [apply String.eqb_eq in He; contradiction|].
    reflexivity. }
  unfold post_message, ensure_array, push_message, get_property, cached. unfold_js.
  rewrite Hc. simpl. rewrite Hd. rewrite Ht. simpl. rewrite Hsock, Hsend.
  fold w1. simpl.
  destruct (messagesStore w1 !! decoded) as [l|] eqn:Hl; simpl.
  - rewrite ?Hl. simpl. reflexivity.
  - rewrite Hp. simpl. rewrite ?lookup_insert_eq. simpl.
    rewrite ?insert_insert_eq. reflexivity.
Qed.

Lemma jid_not_prototype_key k : is_jid k = true -> is_prototype_key k = false.
Proof.
  intros Hjid. destruct (is_prototype_key k) eqn:Hp; [|reflexivity].
  unfold is_prototype_key in Hp. apply existsb_exists in Hp as (x & Hx & Heq).
  apply String.eqb_eq in Heq. subst x. unfold object_prototype_keys in Hx.
  simpl in Hx.
  repeat (destruct Hx as [<- | Hx]; [vm_compute in Hjid; discriminate Hjid|]).
  contradiction.
Qed.

(** For a chat id that is a JID: while connected and for a non-empty text,
    when the client's send call succeeds the endpoint appends exactly one
    record to that chat's cache; the record is outgoing, has the text as
    body, the id the client assigned and the server's clock in seconds as
    timestamp; and the success response carries this record. *)
Theorem send_appends_one_record env w chatId decoded text sentId s :
  connected (connectionState w) = true ->
  decodeURIComponent env chatId = Returned decoded ->
  is_jid decoded = true ->
  text <> "" ->
  sock w = Some s ->
  sendMessage env decoded text = Returned sentId ->
  let w1 := during env AwaitSend w in
  let record := sent_record env sentId text in
  post_message env chatId (Some text) w =
    (Returned {| status := 200; body := SentMessage record |},
     with_messagesStore
       (<[decoded := (cached w1 decoded ++ [record])%list]> (messagesStore w1)) w1,
     [CallSendMessage decoded text]) /\
  Message.isOutgoing record = true /\
  Message.body record = text /\
  Message.id record = sentId /\
  Message.timestamp record = Date_now env / 1000.
Proof.
  intros Hc Hd Hjid Htext Hsock Hsend w1 record.
  split; [|repeat split].
  apply (post_message_caches env w chatId decoded text sentId s); auto.
  apply jid_not_prototype_key. exact Hjid.
Qed.

Lemma send_appends_one_record_witness :
  cached (world_after
            (post_message exampleEnv "491700000002%40s.whatsapp.net" (Some "on my way")
               connectedWorld))
         "491700000002@s.whatsapp.net"
  = (cached connectedWorld "491700000002@s.whatsapp.net"
       ++ [sent_record exampleEnv "3EB0C7" "on my way"])%list.
Proof.
  destruct (send_appends_one_record exampleEnv connectedWorld
              "491700000002%40s.whatsapp.net" "491700000002@s.whatsapp.net"
              "on my way" "3EB0C7" 1%nat) as [Hrun _].
  - vm_compute. reflexivity.
  - vm_compute. reflexivity.
  - vm_compute. reflexivity.
  - discriminate.
  - vm_compute. reflexivity.
  - vm_compute. reflexivity.
  - rewrite Hrun. vm_compute. reflexivity.
Defined.


(** ** Disconnect *)

(** [C1], as stated, fails: when the client's logout call fails, the endpoint
    answers 500 and the state, the chats and the cache are what they were. *)
Lemma disconnect_logout_fails_keeps_state :
  let r := disconnect failingLogoutEnv connectedWorld in
  result r = Returned (status_json 500 (Plain false "Connection Closed")) /\
  world_after r = connectedWorld /\
  connectionState (world_after r) <> initialConnectionState /\
  chats (world_after r) <> [] /\
  messagesStore (world_after r) <> ∅.
Proof.
  vm_compute. repeat split; try reflexivity; intros H; discriminate H.
Qed.

(** [C1], amended: when the logout call of a present client succeeds and the
    session directory, if it exists, is removed and created again without
    an error, then whatever the state was, [connectionState] is reset to its
    initial value, [chats] to the empty list and [messagesStore] to the empty
    map, the client handle is cleared and the response is the success one.
    When the logout call fails, the endpoint answers 500 with the error's
    message and resets nothing. *)
Theorem disconnect_resets env w :
  ((is_Some (sock w) -> logout env = Returned tt) ->
   (existsSync env = true -> rmSync env = Returned tt /\ mkdirSync env = Returned tt) ->
   result (disconnect env w) =
     Returned {| status := 200; body := Plain true "Disconnected successfully" |} /\
   world_after (disconnect env w) = initialWorld) /\
  (forall e, is_Some (sock w) -> logout env = Thrown e ->
   disconnect env w =
     (Returned {| status := 500; body := Plain false e |},
      during env AwaitLogout w, [CallLogout])).
Proof.
  split.
  - intros Hlogout Hfs. unfold disconnect. unfold_js.
    destruct (sock w) as [s|] eqn:Hs; simpl.
    + rewrite (Hlogout (ex_intro _ s eq_refl)). simpl.
      destruct (existsSync env); simpl.
      * destruct (Hfs eq_refl) as [-> ->]. simpl. split; reflexivity.
      * split; reflexivity.
    + destruct (existsSync env); simpl.
      * destruct (Hfs eq_refl) as [-> ->]. simpl. split; [reflexivity|].
        unfold world_after, with_messagesStore, with_chats, with_connectionState,
          initialWorld. simpl. rewrite Hs. reflexivity.
      * split; [reflexivity|].
        unfold world_after, with_messagesStore, with_chats, with_connectionState,
          initialWorld. simpl. rewrite Hs. reflexivity.
  - intros e [s Hs] He. unfold disconnect. unfold_js.
    rewrite Hs. simpl. rewrite He. reflexivity.
Qed.

Lemma disconnect_resets_witness :
  result (disconnect exampleEnv connectedWorld) =
    Returned {| status := 200; body := Plain true "Disconnected successfully" |} /\
  world_after (disconnect exampleEnv connectedWorld) = initialWorld.
Proof.
  apply (proj1 (disconnect_resets exampleEnv connectedWorld)).
  - intros _. reflexivity.
  - intros _. split; reflexivity.
Defined.

(** ** Examples *)

Lemma inbound_body_first_populated_witness :
  map Message.body
    (cached (world_after (on_messages_upsert mixed_batch "notify" initialWorld))
       "491700000001@s.whatsapp.net")
  = ["hi"; "see https://example.org"; "the lake"; "[Media]"; "[Media]"] /\
  Message.body
    (messageData
       {| WAMessage.remoteJid := "491700000001@s.whatsapp.net";
          WAMessage.id := "M3"; WAMessage.fromMe := false;
          WAMessage.message :=
            Some [otherMessage "messageContextInfo"; imageMessage (Some "the lake")];
          WAMessage.messageTimestamp := 3000 |})
  = "the lake".
Proof.
  destruct (inbound_body_first_populated mixed_batch initialWorld) as [Hcache Hbody].
  - vm_compute. reflexivity.
  - split.
    + rewrite (Hcache "491700000001@s.whatsapp.net"). vm_compute. reflexivity.
    + apply (proj2 (Hbody _ (list_elem_of_further _ _ _
                               (list_elem_of_further _ _ _ (list_elem_of_here _ _))))
               None None (Some "the lake")).
      split; [|split].
      * apply member_absent. repeat constructor.
      * apply member_absent. repeat constructor.
      * apply (member_present image_caption_entry
                 [otherMessage "messageContextInfo"] (imageMessage (Some "the lake")) []).
        -- repeat constructor.
        -- reflexivity.
Defined.

Example body_plain_text :
  Message.body (messageData (inbound "491700000001@s.whatsapp.net" "A1" "hi" 1000)) = "hi".
Proof. reflexivity. Qed.

Example body_extended_text_after_empty_plain_text :
  Message.body (messageData
    {| WAMessage.remoteJid := "491700000001@s.whatsapp.net";
       WAMessage.id := "A3"; WAMessage.fromMe := false;
       WAMessage.message :=
         Some [conversation (Some ""); extendedTextMessage (Some "see https://example.org")];
       WAMessage.messageTimestamp := 4000 |})
  = "see https://example.org".
Proof. reflexivity. Qed.

Example body_image_caption :
  Message.body (messageData
    {| WAMessage.remoteJid := "491700000001@s.whatsapp.net";
       WAMessage.id := "A4"; WAMessage.fromMe := false;
       WAMessage.message := Some [imageMessage (Some "the lake")];
       WAMessage.messageTimestamp := 5000 |})
  = "the lake".
Proof. reflexivity. Qed.

Example body_media_placeholder :
  Message.body (messageData
    {| WAMessage.remoteJid := "491700000001@s.whatsapp.net";
       WAMessage.id := "A5"; WAMessage.fromMe := false;
       WAMessage.message := Some [imageMessage None];
       WAMessage.messageTimestamp := 6000 |})
  = "[Media]" /\
  Message.body (messageData
    {| WAMessage.remoteJid := "491700000001@s.whatsapp.net";
       WAMessage.id := "A6"; WAMessage.fromMe := false;
       WAMessage.message := None;
       WAMessage.messageTimestamp := 7000 |})
  = "[Media]".
Proof. split; reflexivity. Qed.

Example strip_non_digits_ex :
  strip_non_digits "+49 (170) 000-0001" = "491700000001" /\
  strip_non_digits "123" = "123" /\
  strip_non_digits "call me" = "".
Proof. repeat split; reflexivity. Qed.

Example split_first_ex :
  split_first "@" "491700000001@s.whatsapp.net" = "491700000001" /\
  split_first "@" "status" = "status".
Proof. split; reflexivity. Qed.

Example endsWith_ex :
  endsWith "120363041234567890@g.us" "@g.us" = true /\
  endsWith "491700000001@s.whatsapp.net" "@g.us" = false /\
  endsWith "us" "@g.us" = false.
Proof. repeat split; reflexivity. Qed.

Example percent_decode_ex :
  percent_decode "491700000001%40s.whatsapp.net" = Returned "491700000001@s.whatsapp.net" /\
  percent_decode "100%" = Thrown "URI malformed".
Proof. split; reflexivity. Qed.

Example pairing_code_at_once :
  request_pairing_code exampleEnv (JString "+49 170 0000001") initialWorld =
    (Returned (Some {| status := 200;
                       body := PairingCode "ABCD1234" pairing_instructions |}),
     {| sock := Some 1%nat;
        connectionState :=
          {| connected := false; connecting := true;
             pairingCode := Some "ABCD1234";
             phoneNumber := Some "491700000001"; error := None; qr := None |};
        chats := []; messagesStore := ∅ |},
     [CallUseMultiFileAuthState; CallFetchLatestBaileysVersion; CallMakeWASocket;
      Sleep 2000; CallRequestPairingCode "491700000001"]).
Proof. vm_compute. reflexivity. Qed.

Example phone_number_not_a_string :
  request_pairing_code exampleEnv (JNumber 4917) initialWorld =
    (Returned (Some {| status := 500;
                       body := Plain false "phoneNumber.replace is not a function" |}),
     with_connectionState
       (set_error (Some "phoneNumber.replace is not a function") initialConnectionState)
       initialWorld,
     []).
Proof. vm_compute. reflexivity. Qed.

(** * Further properties of the code *)

(** ** Strings *)

Lemma strip_non_digits_all_digits s : all_digits (strip_non_digits s) = true.
Proof.
  unfold all_digits. induction s as [|c s IH]; simpl; [reflexivity|].
  destruct (is_digit c) eqn:Hc; simpl; [rewrite Hc|]; exact IH.
Qed.

Lemma strip_all_digits_id s : all_digits s = true -> strip_non_digits s = s.
Proof.
  unfold all_digits. induction s as [|c s IH]; simpl; [reflexivity|].
  intros H. apply andb_true_iff in H as [Hc Hs]. rewrite Hc, (IH Hs). reflexivity.
Qed.

Lemma strip_non_digits_length s :
  (String.length (strip_non_digits s) <= String.length s)%nat.
Proof.
  induction s as [|c s IH]; simpl; [lia|].
  destruct (is_digit c); simpl; lia.
Qed.

(** [X1] The cleaned phone number holds decimal digits only and is never
    longer than what was sent; cleaning it again changes nothing, and a
    string of digits is left as it is. *)
Theorem clean_phone_is_digits s :
  all_digits (strip_non_digits s) = true /\
  (String.length (strip_non_digits s) <= String.length s)%nat /\
  strip_non_digits (strip_non_digits s) = strip_non_digits s /\
  (all_digits s = true -> strip_non_digits s = s).
Proof.
  split; [apply strip_non_digits_all_digits|].
  split; [apply strip_non_digits_length|].
  split; [|apply strip_all_digits_id].
  apply strip_all_digits_id, strip_non_digits_all_digits.
Qed.

Lemma clean_phone_is_digits_witness :
  strip_non_digits "491700000001" = "491700000001".
Proof.
  apply (proj2 (proj2 (proj2 (clean_phone_is_digits "491700000001")))).
  vm_compute. reflexivity.
Defined.

Lemma split_first_append user server :
  is_jid user = false -> split_first "@" (user ++ "@" ++ server) = user.
Proof.
  unfold is_jid. induction user as [|c user IH]; [reflexivity|].
  cbn [list_ascii_of_string existsb].
  intros H. apply orb_false_iff in H as [Hc Hu].
  change (String c user ++ "@" ++ server) with (String c (user ++ "@" ++ server)).
  cbn [split_first].
  rewrite Ascii.eqb_sym in Hc. rewrite Hc. rewrite (IH Hu). reflexivity.
Qed.

Lemma split_first_no_sep s : is_jid (split_first "@" s) = false.
Proof.
  unfold is_jid. induction s as [|c s IH]; [reflexivity|].
  cbn [split_first].
  destruct (Ascii.eqb c "@") eqn:Hc; [reflexivity|].
  cbn [list_ascii_of_string existsb].
  rewrite Ascii.eqb_sym in Hc. rewrite Hc. exact IH.
Qed.

Lemma string_length_append (a b : string) :
  String.length (a ++ b) = (String.length a + String.length b)%nat.
Proof. induction a as [|c a IH]; simpl; [reflexivity | rewrite IH; reflexivity]. Qed.

Lemma substring_whole s : substring 0 (String.length s) s = s.
Proof. induction s as [|c s IH]; simpl; [reflexivity | rewrite IH; reflexivity]. Qed.

Lemma substring_append_skip (p r : string) m :
  substring (String.length p) m (p ++ r) = substring 0 m r.
Proof. induction p as [|c p IH]; simpl; [reflexivity | exact IH]. Qed.

Lemma substring_split s : forall n,
  (n <= String.length s)%nat ->
  s = substring 0 n s ++ substring n (String.length s - n) s.
Proof.
  induction s as [|c s IH]; intros [|n] Hn; simpl in *; try lia.
  - reflexivity.
  - rewrite substring_whole. reflexivity.
  - f_equal.
    assert (Hs : forall k t, substring 0 (S k) (String c t) = String c (substring 0 k t))
      by reflexivity.
    rewrite (IH n) at 1 by lia. reflexivity.
Qed.

Lemma endsWith_spec s suffix :
  endsWith s suffix = true <-> exists p, s = p ++ suffix.
Proof.
  unfold endsWith. split.
  - destruct (String.length suffix <=? String.length s)%nat eqn:Hle; [|discriminate].
    apply Nat.leb_le in Hle. intros H. apply String.eqb_eq in H.
    exists (substring 0 (String.length s - String.length suffix) s).
    pose proof (substring_split s (String.length s - String.length suffix)%nat
                  ltac:(lia)) as Hs.
    replace (String.length s - (String.length s - String.length suffix))%nat
      with (String.length suffix) in Hs by lia.
    rewrite H in Hs. exact Hs.
  - intros [p ->]. rewrite string_length_append.
    replace (String.length suffix <=? String.length p + String.length suffix)%nat
      with true by (symmetry; apply Nat.leb_le; lia).
    replace (String.length p + String.length suffix - String.length suffix)%nat
      with (String.length p) by lia.
    rewrite substring_append_skip, substring_whole. apply String.eqb_refl.
Qed.

(** ** More on the chat list *)

(** [X2] A chat id [user@server] that is not listed yet gets an entry at the
    front whose name is the part before the first [@], and which is flagged
    as a group exactly when the id ends in [@g.us]. *)
Theorem new_chat_name_and_group user server (m : Message.t) (cs : list Chat.t) :
  is_jid user = false ->
  (user ++ "@" ++ server) ∉ map Chat.id cs ->
  exists entry,
    updateChatWithMessage (user ++ "@" ++ server) m cs = entry :: cs /\
    Chat.id entry = user ++ "@" ++ server /\
    Chat.name entry = user /\
    (Chat.isGroup entry = true <-> exists p, user ++ "@" ++ server = p ++ "@g.us").
Proof.
  intros Huser Hnot. exists (new_chat (user ++ "@" ++ server) m).
  split; [apply update_absent; exact Hnot|]. split; [reflexivity|].
  split; [apply split_first_append; exact Huser|].
  apply endsWith_spec.
Qed.

Lemma new_chat_name_and_group_witness :
  exists entry,
    updateChatWithMessage "120363041234567890@g.us" (messageData (inbound "120363041234567890@g.us" "G1" "hi all" 1000)) []
      = [entry] /\
    Chat.name entry = "120363041234567890" /\
    Chat.isGroup entry = true.
Proof.
  destruct (new_chat_name_and_group "120363041234567890" "g.us"
              (messageData (inbound "120363041234567890@g.us" "G1" "hi all" 1000)) [])
    as (entry & Hupd & _ & Hname & Hgroup).
  - vm_compute. reflexivity.
  - apply (bool_decide_unpack _). vm_compute. exact I.
  - exists entry. split; [exact Hupd|]. split; [exact Hname|].
    apply Hgroup. exists "120363041234567890". reflexivity.
Defined.

Lemma update_ids chatId m (cs : list Chat.t) :
  map Chat.id (updateChatWithMessage chatId m cs) =
    if bool_decide (chatId ∈ map Chat.id cs) then map Chat.id cs
    else chatId :: map Chat.id cs.
Proof.
  case_bool_decide as Hin.
  - apply update_ids_present. exact Hin.
  - rewrite (update_absent _ _ _ Hin). reflexivity.
Qed.

(** [X3] A message for one chat changes no entry of another chat: the entries
    with a different id are the same before and after, and the list grows by
    one entry exactly when the id was not listed. *)
Theorem update_leaves_other_chats chatId (m : Message.t) (cs : list Chat.t) :
  (forall c, Chat.id c <> chatId ->
     (c ∈ updateChatWithMessage chatId m cs <-> c ∈ cs)) /\
  length (updateChatWithMessage chatId m cs) =
    (length cs + if bool_decide (chatId ∈ map Chat.id cs) then 0 else 1)%nat.
Proof.
  case_bool_decide as Hin.
  - destruct (update_present chatId m cs Hin) as (i & c0 & Hl & Hid & _ & ->).
    split; [|rewrite length_insert; lia].
    intros c Hne. split.
    + intros Hc. apply list_elem_of_lookup in Hc as [j Hj].
      destruct (decide (i = j)) as [->|Hij].
      * rewrite list_lookup_insert_eq in Hj by (eapply lookup_lt_Some; exact Hl).
        injection Hj as <-. simpl in Hne. contradiction.
      * rewrite list_lookup_insert_ne in Hj by exact Hij.
        apply list_elem_of_lookup. eauto.
    + intros Hc. apply list_elem_of_lookup in Hc as [j Hj].
      apply list_elem_of_lookup. exists j.
      destruct (decide (i = j)) as [->|Hij].
      * rewrite Hl in Hj. injection Hj as <-. contradiction.
      * rewrite list_lookup_insert_ne by exact Hij. exact Hj.
  - rewrite (update_absent _ _ _ Hin). split; [|simpl; lia].
    intros c Hne. rewrite elem_of_cons. split; [|auto].
    intros [-> | Hc]; [simpl in Hne; contradiction | exact Hc].
Qed.

Lemma update_NoDup chatId m (cs : list Chat.t) :
  NoDup (map Chat.id cs) -> NoDup (map Chat.id (updateChatWithMessage chatId m cs)).
Proof.
  intros Hnd. rewrite update_ids. case_bool_decide as Hin; [exact Hnd|].
  apply NoDup_cons. split; assumption.
Qed.

Lemma chats_after_snoc msgs msg cs :
  chats_after (msgs ++ [msg])%list cs =
    updateChatWithMessage (WAMessage.remoteJid msg) (messageData msg)
      (chats_after msgs cs).
Proof. unfold chats_after. rewrite fold_left_app. reflexivity. Qed.

Lemma chats_after_NoDup msgs : forall cs,
  NoDup (map Chat.id cs) -> NoDup (map Chat.id (chats_after msgs cs)).
Proof.
  induction msgs as [|msg msgs IH]; intros cs Hnd; [exact Hnd|].
  simpl. apply IH. apply update_NoDup. exact Hnd.
Qed.

Lemma find_chat_update_same chatId m (cs : list Chat.t) :
  exists i c,
    find_chat chatId (updateChatWithMessage chatId m cs) = Some (i, c) /\
    Chat.timestamp c = Message.timestamp m /\
    Chat.lastMessage c =
      Some {| LastMessage.body := Message.body m;
              LastMessage.timestamp := Message.timestamp m |}.
Proof.
  destruct (decide (chatId ∈ map Chat.id cs)) as [Hin|Hnot].
  - destruct (update_present chatId m cs Hin) as (i & c0 & Hl & Hid & Hmin & ->).
    exists i, (touch_chat m c0). split; [|split; reflexivity].
    unfold find_chat. apply list_find_Some. split; [|split].
    + apply list_lookup_insert_eq. eapply lookup_lt_Some; exact Hl.
    + exact Hid.
    + intros j y Hj Hlt. rewrite list_lookup_insert_ne in Hj by lia.
      exact (Hmin j y Hj Hlt).
  - rewrite (update_absent _ _ _ Hnot). exists 0%nat, (new_chat chatId m).
    split; [|split; reflexivity].
    unfold find_chat. apply list_find_Some. split; [reflexivity|].
    split; [reflexivity|]. intros j y _ Hlt. lia.
Qed.

Lemma find_chat_update_other chatId other m (cs : list Chat.t) i c :
  other <> chatId ->
  find_chat chatId cs = Some (i, c) ->
  exists i', find_chat chatId (updateChatWithMessage other m cs) = Some (i', c).
Proof.
  intros Hne Hfind. unfold find_chat in *.
  apply list_find_Some in Hfind as (Hl & Hid & Hmin).
  destruct (decide (other ∈ map Chat.id cs)) as [Hin|Hnot].
  - destruct (update_present other m cs Hin) as (j & c0 & Hj & Hjid & _ & ->).
    exists i. apply list_find_Some.
    assert (Hij : j <> i).
    { intros ->. rewrite Hl in Hj. injection Hj as <-. congruence. }
    split; [rewrite list_lookup_insert_ne by exact Hij; exact Hl|].
    split; [exact Hid|].
    intros k y Hk Hlt. destruct (decide (j = k)) as [->|Hjk].
    + rewrite list_lookup_insert_eq in Hk by (eapply lookup_lt_Some; exact Hj).
      injection Hk as <-. simpl. congruence.
    + rewrite list_lookup_insert_ne in Hk by exact Hjk. exact (Hmin k y Hk Hlt).
  - rewrite (update_absent _ _ _ Hnot). exists (S i). apply list_find_Some.
    split; [exact Hl|]. split; [exact Hid|].
    intros [|k] y Hk Hlt; simpl in Hk.
    + injection Hk as <-. simpl. exact Hne.
    + apply (Hmin k y Hk). lia.
Qed.

Lemma chats_after_last chatId msgs : forall cs lastmsg,
  last (filter (fun m => WAMessage.remoteJid m = chatId) msgs) = Some lastmsg ->
  exists i c,
    find_chat chatId (chats_after msgs cs) = Some (i, c) /\
    Chat.timestamp c = WAMessage.messageTimestamp lastmsg /\
    Chat.lastMessage c =
      Some {| LastMessage.body := Message.body (messageData lastmsg);
              LastMessage.timestamp := WAMessage.messageTimestamp lastmsg |}.
Proof.
  induction msgs as [|msg msgs IH] using rev_ind; intros cs lastmsg Hlast.
  - discriminate Hlast.
  - rewrite chats_after_snoc. rewrite filter_app in Hlast.
    destruct (decide (WAMessage.remoteJid msg = chatId)) as [Heq|Hne].
    + rewrite filter_cons_True in Hlast by exact Heq. rewrite filter_nil in Hlast.
      rewrite last_snoc in Hlast. injection Hlast as <-. rewrite Heq.
      apply find_chat_update_same.
    + rewrite filter_cons_False in Hlast by exact Hne. rewrite filter_nil in Hlast.
      rewrite app_nil_r in Hlast.
      destruct (IH cs lastmsg Hlast) as (i & c & Hfind & Hts & Hlm).
      destruct (find_chat_update_other chatId (WAMessage.remoteJid msg)
                  (messageData msg) (chats_after msgs cs) i c Hne Hfind) as [i' Hf].
      exists i', c. auto.
Qed.

(** ** More on message ingestion *)

Lemma ingested_all_chats done : forall w,
  chats (ingested_all done w) = chats_after done (chats w).
Proof. induction done as [|m done IH]; intros w; [reflexivity | apply IH]. Qed.

Lemma ingested_all_fixed done : forall w,
  sock (ingested_all done w) = sock w /\
  connectionState (ingested_all done w) = connectionState w.
Proof.
  induction done as [|m done IH]; intros w; [split; reflexivity|].
  simpl. destruct (IH (ingested m w)) as [-> ->]. split; reflexivity.
Qed.

Lemma ingested_all_cached done : forall w chatId,
  cached (ingested_all done w) chatId =
    (cached w chatId ++
     map messageData (filter (fun m => WAMessage.remoteJid m = chatId) done))%list.
Proof.
  induction done as [|m done IH]; intros w chatId.
  - cbn. rewrite ?app_nil_r. reflexivity.
  - simpl. rewrite IH, cached_ingested.
    destruct (decide (WAMessage.remoteJid m = chatId)) as [Heq|Hne].
    + rewrite filter_cons_True by exact Heq. simpl. rewrite <- app_assoc. reflexivity.
    + rewrite filter_cons_False by exact Hne. reflexivity.
Qed.

(** How far the handler's loop gets: through the whole batch, or up to the
    first message whose chat id names an inherited member. *)
Lemma for_each_ingest_run msgs : forall w,
  (for_each msgs ingest w = (Returned tt, ingested_all msgs w, [])) \/
  (exists done bad rest,
     msgs = (done ++ bad :: rest)%list /\
     for_each msgs ingest w =
       (Thrown "messagesStore[chatId].push is not a function",
        ingested_all done w, []) /\
     messagesStore (ingested_all done w) !! WAMessage.remoteJid bad = None /\
     is_prototype_key (WAMessage.remoteJid bad) = true).
Proof.
  induction msgs as [|msg msgs IH]; intros w; [left; reflexivity|].
  rewrite for_each_cons, ingest_run.
  destruct (messagesStore w !! WAMessage.remoteJid msg) as [l|] eqn:Hl;
    [|destruct (is_prototype_key (WAMessage.remoteJid msg)) eqn:Hp].
  2:{ right. exists [], msg, msgs. repeat split; auto. }
  all: destruct (IH (ingested msg w)) as [Hok | (done & bad & rest & -> & Hrun & Hb & Hpb)];
    [ left; rewrite Hok; reflexivity
    | right; exists (msg :: done), bad, rest; rewrite Hrun;
      repeat split; auto ].
Qed.

Lemma on_messages_upsert_run msgs type w :
  exists done rest,
    msgs = (done ++ rest)%list /\
    world_after (on_messages_upsert msgs type w) = ingested_all done w /\
    calls (on_messages_upsert msgs type w) = [] /\
    (result (on_messages_upsert msgs type w) = Returned tt ->
     type = "notify" -> rest = []).
Proof.
  unfold on_messages_upsert. destruct (String.eqb type "notify") eqn:Ht.
  - destruct (for_each_ingest_run msgs w) as [Hok | (done & bad & rest & -> & Hrun & _)].
    + exists msgs, []. rewrite Hok, app_nil_r. repeat split; auto.
    + exists done, (bad :: rest). rewrite Hrun. repeat split; auto.
      intros H. discriminate H.
  - exists [], msgs. repeat split; auto.
    intros _ ->. discriminate Ht.
Qed.

(** [X4] The handler keeps the ids of the chat list distinct: whatever the
    batch and its type, and also when the handler throws part-way. *)
Theorem upsert_keeps_chat_ids_distinct msgs type w :
  NoDup (map Chat.id (chats w)) ->
  NoDup (map Chat.id (chats (world_after (on_messages_upsert msgs type w)))).
Proof.
  intros Hnd. destruct (on_messages_upsert_run msgs type w) as (done & rest & _ & -> & _).
  rewrite ingested_all_chats. apply chats_after_NoDup. exact Hnd.
Qed.

Lemma upsert_keeps_chat_ids_distinct_witness :
  NoDup (map Chat.id (chats (world_after
    (on_messages_upsert alice_bob_alice "notify" connectedWorld)))).
Proof.
  apply (upsert_keeps_chat_ids_distinct alice_bob_alice "notify" connectedWorld).
  apply (bool_decide_unpack _). vm_compute. exact I.
Defined.

(** [X5] After the handler has run through a live batch, the first entry of
    the chat list with a given chat id carries, as [lastMessage] and
    [timestamp], the body and the timestamp of the last message of the batch
    for that chat id. *)
Theorem upsert_last_message msgs w chatId lastmsg :
  result (on_messages_upsert msgs "notify" w) = Returned tt ->
  last (filter (fun m => WAMessage.remoteJid m = chatId) msgs) = Some lastmsg ->
  exists i c,
    find_chat chatId (chats (world_after (on_messages_upsert msgs "notify" w)))
      = Some (i, c) /\
    Chat.timestamp c = WAMessage.messageTimestamp lastmsg /\
    Chat.lastMessage c =
      Some {| LastMessage.body := Message.body (messageData lastmsg);
              LastMessage.timestamp := WAMessage.messageTimestamp lastmsg |}.
Proof.
  intros Hres Hlast.
  destruct (on_messages_upsert_run msgs "notify" w) as (done & rest & Hsplit & Hw & _ & Hall).
  rewrite (Hall Hres eq_refl), app_nil_r in Hsplit. subst done.
  rewrite Hw, ingested_all_chats. apply chats_after_last. exact Hlast.
Qed.

Lemma upsert_last_message_witness :
  exists i c,
    find_chat "491700000001@s.whatsapp.net"
      (chats (world_after (on_messages_upsert alice_bob_alice "notify" initialWorld)))
      = Some (i, c) /\
    Chat.timestamp c = 3000 /\
    Chat.lastMessage c =
      Some {| LastMessage.body := "are you there?"; LastMessage.timestamp := 3000 |}.
Proof.
  apply (upsert_last_message alice_bob_alice initialWorld "491700000001@s.whatsapp.net"
           (inbound "491700000001@s.whatsapp.net" "A2" "are you there?" 3000)).
  - vm_compute. reflexivity.
  - vm_compute. reflexivity.
Defined.

(** [X6] The handler only ever appends to the cache: for every batch, of any
    type, and also when it throws part-way, each chat's cached messages
    before the batch are a prefix of those after it; it makes no call and
    leaves the client handle and [connectionState] alone.  A batch whose type
    is not [notify] changes nothing at all. *)
Theorem upsert_appends_only msgs type w :
  (forall chatId,
     cached w chatId `prefix_of`
       cached (world_after (on_messages_upsert msgs type w)) chatId) /\
  sock (world_after (on_messages_upsert msgs type w)) = sock w /\
  connectionState (world_after (on_messages_upsert msgs type w)) = connectionState w /\
  calls (on_messages_upsert msgs type w) = [] /\
  (type <> "notify" -> on_messages_upsert msgs type w = (Returned tt, w, [])).
Proof.
  destruct (on_messages_upsert_run msgs type w) as (done & rest & _ & Hw & Hc & _).
  rewrite Hw. destruct (ingested_all_fixed done w) as [Hs Hcs].
  split; [|split; [exact Hs|split; [exact Hcs|split; [exact Hc|]]]].
  - intros chatId. rewrite ingested_all_cached. eexists. reflexivity.
  - intros Hne. unfold on_messages_upsert.
    destruct (String.eqb type "notify") eqn:Ht; [|reflexivity].
    apply String.eqb_eq in Ht. contradiction.
Qed.

Lemma upsert_appends_only_witness :
  on_messages_upsert alice_bob_alice "append" connectedWorld
    = (Returned tt, connectedWorld, []).
Proof.
  apply (proj2 (proj2 (proj2 (proj2
    (upsert_appends_only alice_bob_alice "append" connectedWorld))))).
  discriminate.
Defined.

(** [X7] A live batch is given up at the first message whose chat id is the
    name of a member of [Object.prototype] with no cache of its own: the
    handler throws there, the messages before it are cached and listed, and
    that message and all the later ones of the batch are neither cached nor
    listed. *)
Theorem upsert_stops_at_inherited_key done bad rest w :
  (forall m, m ∈ done -> is_prototype_key (WAMessage.remoteJid m) = false) ->
  is_prototype_key (WAMessage.remoteJid bad) = true ->
  messagesStore w !! WAMessage.remoteJid bad = None ->
  let r := on_messages_upsert (done ++ bad :: rest)%list "notify" w in
  result r = Thrown "messagesStore[chatId].push is not a function" /\
  (forall chatId,
     cached (world_after r) chatId =
       (cached w chatId ++
        map messageData (filter (fun m => WAMessage.remoteJid m = chatId) done))%list) /\
  chats (world_after r) = chats_after done (chats w).
Proof.
  intros Hdone Hbad Hnone r.
  assert (Hrun : r = (Thrown "messagesStore[chatId].push is not a function",
                      ingested_all done w, [])).
  { subst r. unfold on_messages_upsert.
    change (String.eqb "notify" "notify") with true. cbv iota.
    revert w Hnone. induction done as [|m done IH]; intros w Hnone.
    - simpl app. rewrite for_each_cons, ingest_run, Hnone, Hbad. reflexivity.
    - simpl app. rewrite for_each_cons, ingest_run.
      assert (Hm : is_prototype_key (WAMessage.remoteJid m) = false)
        by (apply Hdone; apply list_elem_of_here).
      rewrite Hm.
      assert (Hnext : for_each (done ++ bad :: rest)%list ingest (ingested m w) =
                (Thrown "messagesStore[chatId].push is not a function",
                 ingested_all done (ingested m w), [])).
      { apply IH.
        - intros m' Hm'. apply Hdone. apply list_elem_of_further. exact Hm'.
        - unfold ingested. simpl. rewrite lookup_insert_ne; [exact Hnone|].
          intros Heq. rewrite Heq in Hm. congruence. }
      destruct (messagesStore w !! WAMessage.remoteJid m); rewrite Hnext; reflexivity. }
  rewrite Hrun. split; [reflexivity|]. split.
  - intros chatId. apply ingested_all_cached.
  - apply ingested_all_chats.
Qed.

Lemma upsert_stops_at_inherited_key_witness :
  let r := on_messages_upsert
             [ inbound "491700000001@s.whatsapp.net" "A1" "hi" 1000;
               inbound "toString" "T1" "?" 1500;
               inbound "491700000002@s.whatsapp.net" "B1" "hello" 2000 ]
             "notify" initialWorld in
  result r = Thrown "messagesStore[chatId].push is not a function" /\
  cached (world_after r) "491700000002@s.whatsapp.net" = [] /\
  map Chat.id (chats (world_after r)) = ["491700000001@s.whatsapp.net"].
Proof.
  destruct (upsert_stops_at_inherited_key
              [inbound "491700000001@s.whatsapp.net" "A1" "hi" 1000]
              (inbound "toString" "T1" "?" 1500)
              [inbound "491700000002@s.whatsapp.net" "B1" "hello" 2000]
              initialWorld) as (Hres & Hcache & Hchats).
  - intros m Hm. apply list_elem_of_singleton in Hm. subst m. vm_compute. reflexivity.
  - vm_compute. reflexivity.
  - vm_compute. reflexivity.
  - cbv zeta. split; [exact Hres|]. split.
    + exact (Hcache "491700000002@s.whatsapp.net").
    + exact (f_equal (map Chat.id) Hchats).
Defined.

(** ** Connection events *)

Lemma open_state env phone upd w :
  ConnectionUpdate.connection upd = Some "open" ->
  on_connection_update env phone upd w =
    match loadChats env (with_connectionState (opened (connectionState w)) w) with
    | (o, w', t) => (o, w', t)
    end.
Proof.
  intros Hopen. unfold on_connection_update. rewrite Hopen.
  destruct (truthy (ConnectionUpdate.qr upd)); unfold_js; simpl;
    destruct (loadChats env _) as [[o w'] t]; reflexivity.
Qed.

(** [X8] When the connection opens while a client handle is set and the
    groups can be fetched, the chat list is replaced by the groups, in the
    order fetched: each entry is flagged as a group and has no [lastMessage],
    so the entries made from inbound messages are gone; the state is marked
    connected with pairing code, QR code and error cleared, and the handler
    itself does not touch the message cache. *)
Theorem open_replaces_chats env phone upd w s groups :
  ConnectionUpdate.connection upd = Some "open" ->
  sock w = Some s ->
  groupFetchAllParticipating env = Returned groups ->
  on_connection_update env phone upd w =
    (Returned tt,
     with_chats (map group_chat groups)
       (during env AwaitGroups
          (with_connectionState (opened (connectionState w)) w)),
     [CallGroupFetchAllParticipating]) /\
  map Chat.id (map group_chat groups) = map GroupMetadata.id groups /\
  Forall (fun c => Chat.isGroup c = true /\ Chat.lastMessage c = None)
         (map group_chat groups).
Proof.
  intros Hopen Hs Hg. split; [|split].
  - rewrite (open_state env phone upd w Hopen). unfold loadChats. unfold_js.
    simpl. rewrite Hs, Hg. reflexivity.
  - rewrite map_map. reflexivity.
  - apply Forall_forall. intros c Hc. apply list_elem_of_fmap in Hc as (g & -> & _).
    split; reflexivity.
Qed.

Lemma open_replaces_chats_witness :
  map (fun c => (Chat.name c, Chat.isGroup c, Chat.lastMessage c))
      (chats (world_after
                (on_connection_update twoGroupsEnv "491700000001" open_update
                   connectedWorld)))
  = [ ("Family", true, None); ("Unknown", true, None) ].
Proof.
  destruct (open_replaces_chats twoGroupsEnv "491700000001" open_update connectedWorld
              1%nat
              [ GroupMetadata.mk "120363041234567890@g.us" (Some "Family") 1600000000;
                GroupMetadata.mk "120363049876543210@g.us" None 1650000000 ])
    as (Hrun & _ & _).
  - reflexivity.
  - vm_compute. reflexivity.
  - reflexivity.
  - rewrite Hrun. vm_compute. reflexivity.
Defined.

(** [X9] When the connection opens but there is no client handle, or the
    group fetch fails, the handler does not throw: the state is marked
    connected all the same and the chat list is not assigned. *)
Theorem open_without_groups env phone upd w :
  ConnectionUpdate.connection upd = Some "open" ->
  (sock w = None ->
   on_connection_update env phone upd w =
     (Returned tt, with_connectionState (opened (connectionState w)) w, [])) /\
  (forall s e, sock w = Some s -> groupFetchAllParticipating env = Thrown e ->
   on_connection_update env phone upd w =
     (Returned tt,
      during env AwaitGroups (with_connectionState (opened (connectionState w)) w),
      [CallGroupFetchAllParticipating])).
Proof.
  intros Hopen. split.
  - intros Hs. rewrite (open_state env phone upd w Hopen). unfold loadChats.
    unfold_js. simpl. rewrite Hs. reflexivity.
  - intros s e Hs Hg. rewrite (open_state env phone upd w Hopen). unfold loadChats.
    unfold_js. simpl. rewrite Hs, Hg. reflexivity.
Qed.

Lemma open_without_groups_witness :
  let r := on_connection_update noGroupsEnv "491700000001" open_update
             (with_connectionState initialConnectionState connectedWorld) in
  connected (connectionState (world_after r)) = true /\
  chats (world_after r) = chats connectedWorld.
Proof.
  destruct (open_without_groups noGroupsEnv "491700000001" open_update
              (with_connectionState initialConnectionState connectedWorld) eq_refl)
    as [_ Hfail].
  cbv zeta. rewrite (Hfail 1%nat "Timed Out"); [| vm_compute; reflexivity | reflexivity].
  split; reflexivity.
Defined.

(** [X10] When the connection closes, the state is marked neither connected
    nor connecting, and the chats, the message cache, the pairing code and
    the phone number are left as they are.  If the close carries the
    logged-out status, the error becomes [Logged out], the client handle is
    cleared and no reconnect is scheduled; for any other status, or none, one
    reconnect with the same phone number is scheduled after 3000 ms and the
    handle and the error stay. *)
Theorem close_reconnects_unless_logged_out env phone upd w :
  ConnectionUpdate.connection upd = Some "close" ->
  let r := on_connection_update env phone upd w in
  let w' := world_after r in
  result r = Returned tt /\
  connected (connectionState w') = false /\
  connecting (connectionState w') = false /\
  pairingCode (connectionState w') = pairingCode (connectionState w) /\
  phoneNumber (connectionState w') = phoneNumber (connectionState w) /\
  chats w' = chats w /\
  messagesStore w' = messagesStore w /\
  if bool_decide (ConnectionUpdate.statusCode upd = Some (loggedOut env))
  then error (connectionState w') = Some "Logged out" /\ sock w' = None /\
       calls r = []
  else error (connectionState w') = error (connectionState w) /\ sock w' = sock w /\
       calls r = [ScheduleReconnect phone 3000].
Proof.
  intros Hclose r w'. subst w' r. unfold on_connection_update. rewrite Hclose.
  destruct (truthy (ConnectionUpdate.qr upd)); unfold_js; simpl;
    destruct (bool_decide (ConnectionUpdate.statusCode upd = Some (loggedOut env)));
    simpl; repeat split; reflexivity.
Qed.

Lemma close_reconnects_unless_logged_out_witness :
  calls (on_connection_update exampleEnv "491700000001" (close_update (Some 428))
           connectedWorld)
  = [ScheduleReconnect "491700000001" 3000] /\
  calls (on_connection_update exampleEnv "491700000001" (close_update (Some 401))
           connectedWorld)
  = [].
Proof.
  split.
  - apply (close_reconnects_unless_logged_out exampleEnv "491700000001"
             (close_update (Some 428)) connectedWorld eq_refl).
  - apply (close_reconnects_unless_logged_out exampleEnv "491700000001"
             (close_update (Some 401)) connectedWorld eq_refl).
Defined.

(** ** Connecting *)

Lemma connect_setup_fails env phone w e :
  setup_failure env = Some e ->
  exists w' t,
    connectToWhatsApp env phone w = (Thrown e, w', t) /\
    error (connectionState w') = Some e /\
    connecting (connectionState w') = false /\
    Forall (fun c => c = CallUseMultiFileAuthState \/
                     c = CallFetchLatestBaileysVersion \/
                     c = CallMakeWASocket) t.
Proof.
  unfold setup_failure, connectToWhatsApp. unfold_js. simpl. intros H.
  destruct (useMultiFileAuthState env) as [reg|e1].
  - destruct (fetchLatestBaileysVersion env) as [[]|e2].
    + destruct (makeWASocket env) as [s|e3]; [discriminate H|].
      injection H as ->. simpl. eexists _, _. split; [reflexivity|].
      repeat split. repeat (constructor; [auto|]). constructor.
    + injection H as ->. simpl. eexists _, _. split; [reflexivity|].
      repeat split. repeat (constructor; [auto|]). constructor.
  - injection H as ->. simpl. eexists _, _. split; [reflexivity|].
    repeat split. repeat (constructor; [auto|]). constructor.
Qed.

Lemma connect_setup_ok env phone w :
  setup_failure env = None -> result (connectToWhatsApp env phone w) = Returned tt.
Proof.
  unfold setup_failure, connectToWhatsApp. unfold_js. simpl. intros H.
  destruct (useMultiFileAuthState env) as [reg|e1]; [|discriminate H].
  destruct (fetchLatestBaileysVersion env) as [[]|e2]; [|discriminate H].
  destruct (makeWASocket env) as [s|e3]; [|discriminate H]. simpl.
  destruct (String.eqb phone ""); simpl; [reflexivity|].
  destruct reg; simpl; [reflexivity|].
  match goal with |- context [sock ?w0] => destruct (sock w0) end; simpl;
    [|reflexivity].
  destruct (requestPairingCode env phone); reflexivity.
Qed.

(** [X11] [connectToWhatsApp] throws exactly when reading the auth state,
    fetching the version or creating the socket throws, and then with that
    error's message, which it records in [connectionState.error] with
    [connecting] cleared, before any pairing code was asked for.  A pairing
    code request that fails never makes it throw. *)
Theorem connect_throws_iff_setup_fails env phone w :
  result (connectToWhatsApp env phone w) =
    match setup_failure env with
    | Some e => Thrown e
    | None => Returned tt
    end /\
  (forall e, setup_failure env = Some e ->
     error (connectionState (world_after (connectToWhatsApp env phone w))) = Some e /\
     connecting (connectionState (world_after (connectToWhatsApp env phone w))) = false /\
     CallRequestPairingCode phone ∉ calls (connectToWhatsApp env phone w)).
Proof.
  split.
  - destruct (setup_failure env) as [e|] eqn:Hf.
    + destruct (connect_setup_fails env phone w e Hf) as (w' & t & -> & _).
      reflexivity.
    + apply connect_setup_ok. exact Hf.
  - intros e Hf.
    destruct (connect_setup_fails env phone w e Hf) as (w' & t & -> & He & Hc & Ht).
    split; [exact He|]. split; [exact Hc|].
    unfold calls. simpl. intros Hin.
    rewrite Forall_forall in Ht. destruct (Ht _ Hin) as [H|[H|H]]; discriminate H.
Qed.

Lemma connect_throws_iff_setup_fails_witness :
  error (connectionState
           (world_after (connectToWhatsApp noAuthEnv "491700000001" initialWorld)))
    = Some "EACCES: permission denied".
Proof.
  apply (proj2 (connect_throws_iff_setup_fails noAuthEnv "491700000001" initialWorld)
           "EACCES: permission denied").
  reflexivity.
Defined.

(** [X12] For a session that is already registered, [connectToWhatsApp]
    asks for no pairing code and waits for nothing: it makes the three
    set-up calls, sets the client handle and leaves [connectionState], the
    chats and the message cache to what the other handlers made of them. *)
Theorem connect_registered_skips_pairing env phone w s :
  useMultiFileAuthState env = Returned true ->
  fetchLatestBaileysVersion env = Returned tt ->
  makeWASocket env = Returned s ->
  connectToWhatsApp env phone w =
    (Returned tt,
     with_sock (Some s) (during env AwaitVersion (during env AwaitAuthState w)),
     [CallUseMultiFileAuthState; CallFetchLatestBaileysVersion; CallMakeWASocket]).
Proof.
  intros Ha Hv Hs. unfold connectToWhatsApp. unfold_js. simpl.
  rewrite Ha, Hv, Hs. simpl. rewrite andb_false_r. reflexivity.
Qed.

Lemma connect_registered_skips_pairing_witness :
  connectToWhatsApp registeredEnv "491700000001" initialWorld =
    (Returned tt, with_sock (Some 1%nat) initialWorld,
     [CallUseMultiFileAuthState; CallFetchLatestBaileysVersion; CallMakeWASocket]).
Proof.
  apply (connect_registered_skips_pairing registeredEnv "491700000001" initialWorld 1%nat);
    reflexivity.
Defined.

(** ** The pairing endpoint as a whole *)

Lemma begin_pairing_run env clean w :
  begin_pairing env clean w = connectToWhatsApp env clean (prepared clean w).
Proof.
  unfold begin_pairing. unfold_js. simpl.
  change (with_connectionState _ (with_connectionState _ (with_connectionState _
            (with_connectionState _ w)))) with (prepared clean w).
  destruct (connectToWhatsApp env clean (prepared clean w)) as [[[[]|e] w1] t1];
    reflexivity.
Qed.

Lemma request_pairing_code_valid env w s :
  (10 <= String.length (strip_non_digits s))%nat ->
  request_pairing_code env (JString s) w =
    match connectToWhatsApp env (strip_non_digits s) (prepared (strip_non_digits s) w) with
    | (Returned _, w1, t1) =>
        match pairing_poll env w1 with
        | (o, w2, t2) => (o, w2, (t1 ++ t2)%list)
        end
    | (Thrown e, w1, t1) =>
        (Returned (Some (status_json 500
           (Plain false (or_else (Some e) "Failed to generate pairing code")))),
         with_connectionState (set_error (Some e) (set_connecting false (connectionState w1))) w1,
         t1)
    end.
Proof.
  intros Hlen. unfold request_pairing_code.
  rewrite (strip_non_digits_empty s Hlen). simpl negb. cbv iota.
  unfold try_catch, bind at 1, ret at 1. simpl.
  replace (String.length (strip_non_digits s) <? 10)%nat with false
    by (symmetry; apply Nat.ltb_ge; lia).
  unfold bind at 1. rewrite begin_pairing_run.
  destruct (connectToWhatsApp env (strip_non_digits s) (prepared (strip_non_digits s) w))
    as [[[[]|e] w1] t1].
  - destruct (pairing_poll_total env w1) as (n & _ & _ & _ & ->). reflexivity.
  - unfold_js. simpl. rewrite app_nil_r. reflexivity.
Qed.

(** [X13] When reading the auth state, fetching the version or creating the
    socket fails, the pairing endpoint answers 500 with that error's message
    (or [Failed to generate pairing code] when the message is empty), records
    the message in [connectionState.error], clears [connecting], and neither
    asks for a pairing code nor polls. *)
Theorem pairing_setup_failure_500 env w s e :
  (10 <= String.length (strip_non_digits s))%nat ->
  setup_failure env = Some e ->
  let r := request_pairing_code env (JString s) w in
  result r =
    Returned (Some {| status := 500;
                      body := Plain false (or_else (Some e) "Failed to generate pairing code") |}) /\
  error (connectionState (world_after r)) = Some e /\
  connecting (connectionState (world_after r)) = false /\
  (CallRequestPairingCode (strip_non_digits s) ∉ calls r) /\
  (Sleep 500 ∉ calls r).
Proof.
  intros Hlen Hf r. subst r. rewrite (request_pairing_code_valid env w s Hlen).
  destruct (connect_setup_fails env (strip_non_digits s)
              (prepared (strip_non_digits s) w) e Hf) as (w' & t & -> & _ & _ & Ht).
  repeat split; try reflexivity.
  - unfold calls. simpl. intros Hin. rewrite Forall_forall in Ht.
    destruct (Ht _ Hin) as [H|[H|H]]; discriminate H.
  - unfold calls. simpl. intros Hin. rewrite Forall_forall in Ht.
    destruct (Ht _ Hin) as [H|[H|H]]; discriminate H.
Qed.

Lemma pairing_setup_failure_500_witness :
  result (request_pairing_code noAuthEnv (JString "+49 170 0000001") initialWorld) =
    Returned (Some {| status := 500; body := Plain false "EACCES: permission denied" |}).
Proof.
  apply (pairing_setup_failure_500 noAuthEnv initialWorld "+49 170 0000001"
           "EACCES: permission denied").
  - vm_compute. lia.
  - reflexivity.
Defined.

Lemma connect_quiet_unregistered env phone w s :
  quiet env ->
  useMultiFileAuthState env = Returned false ->
  fetchLatestBaileysVersion env = Returned tt ->
  makeWASocket env = Returned s ->
  phone <> "" ->
  connectToWhatsApp env phone w =
    match requestPairingCode env phone with
    | Returned code =>
        (Returned tt,
         with_connectionState
           (set_pairingCode (Some code) (set_connecting true (connectionState w)))
           (with_sock (Some s) w),
         pairing_calls phone)
    | Thrown e =>
        (Returned tt,
         with_connectionState
           (set_connecting false (set_error (Some e) (set_connecting true (connectionState w))))
           (with_sock (Some s) w),
         pairing_calls phone)
    end.
Proof.
  intros Hq Ha Hv Hs Hp.
  assert (Hne : String.eqb phone "" = false).
  { destruct (String.eqb phone "") eqn:He; [apply String.eqb_eq in He; contradiction|].
    reflexivity. }
  unfold connectToWhatsApp. unfold_js. simpl. rewrite Ha, Hv, Hs, Hne. simpl.
  rewrite !Hq. simpl. rewrite !Hq.
  destruct (requestPairingCode env phone); reflexivity.
Qed.

Lemma ticks_quiet env a w k : quiet env -> ticks env a w k = w.
Proof.
  intros Hq. revert a w. induction k as [|k IH]; intros a w; [reflexivity|].
  simpl. rewrite Hq. apply IH.
Qed.

Lemma strip_non_digits_nonempty s :
  (10 <= String.length (strip_non_digits s))%nat -> strip_non_digits s <> "".
Proof. intros H Heq. rewrite Heq in H. simpl in H. lia. Qed.

(** [X14] With no other handler running meanwhile: for a valid phone number
    and a session that is not registered, when the client returns a
    non-empty pairing code the endpoint answers 200 with that code without
    polling; the state then holds the code and the cleaned phone number, with
    [connecting] set and the error cleared, and the client was asked once,
    after a wait of 2000 ms, with the digits of the number. *)
Theorem pairing_code_returned env w s sk code :
  quiet env ->
  (10 <= String.length (strip_non_digits s))%nat ->
  useMultiFileAuthState env = Returned false ->
  fetchLatestBaileysVersion env = Returned tt ->
  makeWASocket env = Returned sk ->
  requestPairingCode env (strip_non_digits s) = Returned code ->
  code <> "" ->
  request_pairing_code env (JString s) w =
    (Returned (Some {| status := 200; body := PairingCode code pairing_instructions |}),
     {| sock := Some sk;
        connectionState :=
          {| connected := connected (connectionState w);
             connecting := true;
             pairingCode := Some code;
             phoneNumber := Some (strip_non_digits s);
             error := None;
             qr := qr (connectionState w) |};
        chats := chats w;
        messagesStore := messagesStore w |},
     pairing_calls (strip_non_digits s)).
Proof.
  intros Hq Hlen Ha Hv Hs Hcode Hne.
  rewrite (request_pairing_code_valid env w s Hlen).
  rewrite (connect_quiet_unregistered env _ _ sk Hq Ha Hv Hs
             (strip_non_digits_nonempty s Hlen)).
  rewrite Hcode.
  assert (Ht : String.eqb code "" = false).
  { destruct (String.eqb code "") eqn:He; [apply String.eqb_eq in He; contradiction|].
    reflexivity. }
  rewrite (pairing_poll_at env _ 0%nat).
  - simpl ticks. unfold poll_response, tick_outcome. simpl. rewrite Ht. simpl.
    rewrite ?app_nil_r. reflexivity.
  - unfold maxAttempts. lia.
  - intros j Hj. lia.
  - intros _. unfold tick_outcome. simpl. rewrite Ht. discriminate.
Qed.

Lemma pairing_code_returned_witness :
  result (request_pairing_code exampleEnv (JString "+49 170 0000001") connectedWorld) =
    Returned (Some {| status := 200; body := PairingCode "ABCD1234" pairing_instructions |}).
Proof.
  rewrite (pairing_code_returned exampleEnv connectedWorld "+49 170 0000001" 1%nat "ABCD1234").
  - reflexivity.
  - intros p w. reflexivity.
  - vm_compute. lia.
  - reflexivity.
  - reflexivity.
  - reflexivity.
  - reflexivity.
  - discriminate.
Defined.

(** [X15] With no other handler running meanwhile: for a valid phone number
    and a session that is not registered, when the client's pairing code
    request fails with a non-empty message the endpoint answers 500 with that
    message at the first look of the poll, without waiting; the message is
    recorded in [connectionState.error] and [connecting] is cleared. *)
Theorem pairing_request_refused env w s sk e :
  quiet env ->
  (10 <= String.length (strip_non_digits s))%nat ->
  useMultiFileAuthState env = Returned false ->
  fetchLatestBaileysVersion env = Returned tt ->
  makeWASocket env = Returned sk ->
  requestPairingCode env (strip_non_digits s) = Thrown e ->
  e <> "" ->
  request_pairing_code env (JString s) w =
    (Returned (Some {| status := 500; body := Plain false e |}),
     {| sock := Some sk;
        connectionState :=
          {| connected := connected (connectionState w);
             connecting := false;
             pairingCode := None;
             phoneNumber := Some (strip_non_digits s);
             error := Some e;
             qr := qr (connectionState w) |};
        chats := chats w;
        messagesStore := messagesStore w |},
     pairing_calls (strip_non_digits s)).
Proof.
  intros Hq Hlen Ha Hv Hs Hreq Hne.
  rewrite (request_pairing_code_valid env w s Hlen).
  rewrite (connect_quiet_unregistered env _ _ sk Hq Ha Hv Hs
             (strip_non_digits_nonempty s Hlen)).
  rewrite Hreq.
  assert (Ht : String.eqb e "" = false).
  { destruct (String.eqb e "") eqn:He; [apply String.eqb_eq in He; contradiction|].
    reflexivity. }
  rewrite (pairing_poll_at env _ 0%nat).
  - simpl ticks. unfold poll_response, tick_outcome. simpl. rewrite Ht. simpl.
    rewrite ?app_nil_r. reflexivity.
  - unfold maxAttempts. lia.
  - intros j Hj. lia.
  - intros _. unfold tick_outcome. simpl. rewrite Ht. discriminate.
Qed.

Lemma pairing_request_refused_witness :
  result (request_pairing_code refusedEnv (JString "+49 170 0000001") initialWorld) =
    Returned (Some {| status := 500; body := Plain false "rate-overlimit" |}).
Proof.
  rewrite (pairing_request_refused refusedEnv initialWorld "+49 170 0000001" 1%nat
             "rate-overlimit").
  - reflexivity.
  - intros p w. reflexivity.
  - vm_compute. lia.
  - reflexivity.
  - reflexivity.
  - reflexivity.
  - reflexivity.
  - discriminate.
Defined.

Lemma poll_response_status n c :
  (status (poll_response n c) = 200 /\ success (body (poll_response n c)) = true) \/
  ((status (poll_response n c) = 408 \/ status (poll_response n c) = 500) /\
   success (body (poll_response n c)) = false).
Proof.
  unfold poll_response, tick_outcome, final_response.
  destruct (n <? maxAttempts)%nat, (truthy (pairingCode c)), (truthy (error c)),
    (connected c); simpl; auto.
Qed.

(** [X16] Provided each awaited call settles, by returning or by throwing:
    whatever the phone number member is, whichever way the calls settle and
    whatever the other handlers do meanwhile, no exception leaves the
    handler of the pairing endpoint and its poll loop ends; the response has
    status 200, 400, 408 or 500, and [success] is true exactly when the
    status is 200. *)
Theorem pairing_endpoint_always_answers env phone w :
  exists resp,
    result (request_pairing_code env phone w) = Returned (Some resp) /\
    (status resp = 200 \/ status resp = 400 \/ status resp = 408 \/ status resp = 500) /\
    (success (body resp) = true <-> status resp = 200).
Proof.
  assert (Hbad : forall msg st, st = 400 \/ st = 500 ->
            (st = 200 \/ st = 400 \/ st = 408 \/ st = 500) /\
            (success (body (status_json st (Plain false msg))) = true <-> st = 200)).
  { intros msg st Hst. split; [tauto|]. simpl.
    split; [discriminate | destruct Hst; lia]. }
  destruct (json_truthy phone) eqn:Htruthy.
  - destruct phone as [| |b|n|s|];
      try discriminate Htruthy;
      try (eexists; split;
           [unfold request_pairing_code; rewrite Htruthy; reflexivity
           | apply Hbad; auto]).
    destruct (Nat.ltb_spec (String.length (strip_non_digits s)) 10) as [Hlt|Hge].
    + exists (status_json 400 (Plain false "Invalid phone number format")).
      split; [|apply (Hbad "Invalid phone number format" 400); auto].
      unfold request_pairing_code. rewrite Htruthy. simpl negb. cbv iota.
      unfold try_catch, bind at 1, ret at 1. simpl.
      replace (String.length (strip_non_digits s) <? 10)%nat with true
        by (symmetry; apply Nat.ltb_lt; lia).
      reflexivity.
    + rewrite (request_pairing_code_valid env w s Hge).
      destruct (connectToWhatsApp env (strip_non_digits s) (prepared (strip_non_digits s) w))
        as [[[[]|e] w1] t1].
      * destruct (pairing_poll_total env w1) as (n & _ & _ & _ & ->).
        eexists. split; [reflexivity|].
        destruct (poll_response_status n (connectionState (ticks env 0 w1 n)))
          as [[Hs Hb] | [Hs Hb]]; rewrite Hb.
        -- split; [auto|]. split; auto.
        -- split; [destruct Hs; auto|].
           split; [discriminate | destruct Hs; lia].
      * eexists. split; [reflexivity|]. apply Hbad. auto.
  - exists (status_json 400 (Plain false "Phone number is required")).
    split; [|apply (Hbad "Phone number is required" 400); auto].
    unfold request_pairing_code. rewrite Htruthy. reflexivity.
Qed.

(** [X17] A phone number member that is truthy but not a string is not
    rejected with 400: the endpoint answers 500, records the error's message
    in [connectionState.error] and clears [connecting], without any call. *)
Theorem pairing_phone_not_a_string env phone w :
  json_truthy phone = true ->
  (forall s, phone <> JString s) ->
  exists message,
    request_pairing_code env phone w =
      (Returned (Some {| status := 500; body := Plain false message |}),
       with_connectionState
         (set_error (Some message) (set_connecting false (connectionState w))) w,
       []).
Proof.
  intros Htruthy Hns. exists "phoneNumber.replace is not a function".
  unfold request_pairing_code. rewrite Htruthy.
  destruct phone as [| |b|n|s|]; try reflexivity.
  exfalso. apply (Hns s). reflexivity.
Qed.

Lemma pairing_phone_not_a_string_witness :
  exists message,
    request_pairing_code exampleEnv (JNumber 491700000001) initialWorld =
      (Returned (Some {| status := 500; body := Plain false message |}),
       with_connectionState
         (set_error (Some message) (set_connecting false initialConnectionState))
         initialWorld,
       []).
Proof.
  apply (pairing_phone_not_a_string exampleEnv (JNumber 491700000001) initialWorld).
  - reflexivity.
  - intros s H. discriminate H.
Defined.

(** ** More on sending and reading messages *)

(** [X18] While connected and with a chat id that decodes, nothing is sent
    and the state is left as it was when the message member is missing or
    empty, which is answered 400, and when the message is there but the
    client handle is null, which is answered 500. *)
Theorem send_rejected_before_sending env w chatId decoded message :
  connected (connectionState w) = true ->
  decodeURIComponent env chatId = Returned decoded ->
  (truthy message = false ->
   post_message env chatId message w =
     (Returned {| status := 400; body := Plain false "Message content is required" |},
      w, [])) /\
  (truthy message = true -> sock w = None ->
   exists error,
     post_message env chatId message w =
       (Returned {| status := 500; body := Plain false error |}, w, [])).
Proof.
  intros Hc Hd. split.
  - intros Hm. unfold post_message. unfold_js. rewrite Hc, Hd, Hm. reflexivity.
  - intros Hm Hs. eexists. unfold post_message. unfold_js.
    rewrite Hc. simpl. rewrite Hd, Hm. simpl. rewrite Hs. reflexivity.
Qed.

Lemma send_rejected_before_sending_witness :
  post_message exampleEnv "491700000002%40s.whatsapp.net" (Some "") connectedWorld =
    (Returned {| status := 400; body := Plain false "Message content is required" |},
     connectedWorld, []) /\
  exists error,
    post_message exampleEnv "491700000002%40s.whatsapp.net" (Some "on my way")
      (with_sock None connectedWorld) =
      (Returned {| status := 500; body := Plain false error |},
       with_sock None connectedWorld, []).
Proof.
  split.
  - apply (send_rejected_before_sending exampleEnv connectedWorld
             "491700000002%40s.whatsapp.net" "491700000002@s.whatsapp.net" (Some ""));
      reflexivity.
  - apply (send_rejected_before_sending exampleEnv (with_sock None connectedWorld)
             "491700000002%40s.whatsapp.net" "491700000002@s.whatsapp.net"
             (Some "on my way")); reflexivity.
Defined.

(** [X19] While connected, when the client's send call fails the endpoint
    answers 500 with the error's message and caches nothing: after the one
    send call the state is what the other handlers made of it. *)
Theorem send_failure_caches_nothing env w chatId decoded text s e :
  connected (connectionState w) = true ->
  decodeURIComponent env chatId = Returned decoded ->
  text <> "" ->
  sock w = Some s ->
  sendMessage env decoded text = Thrown e ->
  post_message env chatId (Some text) w =
    (Returned {| status := 500; body := Plain false e |},
     during env AwaitSend w,
     [CallSendMessage decoded text]).
Proof.
  intros Hc Hd Htext Hs Hsend.
  assert (Ht : String.eqb text "" = false).
  { destruct (String.eqb text "") eqn:He; [apply String.eqb_eq in He; contradiction|].
    reflexivity. }
  unfold post_message. unfold_js. rewrite Hc. simpl. rewrite Hd, Ht. simpl.
  rewrite Hs, Hsend. reflexivity.
Qed.

Lemma send_failure_caches_nothing_witness :
  post_message refusedEnv "491700000002%40s.whatsapp.net" (Some "on my way") connectedWorld =
    (Returned {| status := 500; body := Plain false "Connection Closed" |},
     connectedWorld,
     [CallSendMessage "491700000002@s.whatsapp.net" "on my way"]).
Proof.
  apply (send_failure_caches_nothing refusedEnv connectedWorld
           "491700000002%40s.whatsapp.net" "491700000002@s.whatsapp.net"
           "on my way" 1%nat "Connection Closed"); try reflexivity.
  discriminate.
Defined.

(** [X20] While connected, a chat id that [decodeURIComponent] rejects is
    answered 500 with the error's message by both message endpoints; the
    send endpoint then sends nothing, whatever the message, and the state is
    left as it was. *)
Theorem malformed_chat_id_500 env w chatId message e :
  connected (connectionState w) = true ->
  decodeURIComponent env chatId = Thrown e ->
  get_messages env chatId w =
    (Returned {| status := 500; body := Plain false e |}, w, []) /\
  post_message env chatId message w =
    (Returned {| status := 500; body := Plain false e |}, w, []).
Proof.
  intros Hc Hd. unfold get_messages, post_message. unfold_js.
  rewrite Hc, Hd. split; reflexivity.
Qed.

Lemma malformed_chat_id_500_witness :
  get_messages exampleEnv "100%" connectedWorld =
    (Returned {| status := 500; body := Plain false "URI malformed" |}, connectedWorld, []) /\
  post_message exampleEnv "100%" (Some "hi") connectedWorld =
    (Returned {| status := 500; body := Plain false "URI malformed" |}, connectedWorld, []).
Proof.
  apply (malformed_chat_id_500 exampleEnv connectedWorld "100%" (Some "hi") "URI malformed");
    reflexivity.
Defined.

(** [X21] A message that was sent can be read back: after a successful send
    to a JID, and while the state is still connected, reading that chat's
    messages answers 200 with the cache as it stood when the send resolved
    followed by the record of the message sent. *)
Theorem send_then_read env w chatId decoded text sentId s :
  connected (connectionState w) = true ->
  decodeURIComponent env chatId = Returned decoded ->
  is_jid decoded = true ->
  text <> "" ->
  sock w = Some s ->
  sendMessage env decoded text = Returned sentId ->
  connected (connectionState (during env AwaitSend w)) = true ->
  get_messages env chatId (world_after (post_message env chatId (Some text) w)) =
    (Returned {| status := 200;
                 body := MessageList (Array
                   (cached (during env AwaitSend w) decoded
                      ++ [sent_record env sentId text])%list) |},
     world_after (post_message env chatId (Some text) w), []).
Proof.
  intros Hc Hd Hjid Htext Hs Hsend Hc1.
  rewrite (post_message_caches env w chatId decoded text sentId s Hc Hd Htext Hs Hsend
             (jid_not_prototype_key decoded Hjid)).
  unfold world_after. simpl fst. simpl snd.
  apply (get_messages_cached env _ chatId decoded).
  - exact Hc1.
  - exact Hd.
  - simpl. apply lookup_insert_eq.
Qed.

Lemma send_then_read_witness :
  result (get_messages exampleEnv "491700000002%40s.whatsapp.net"
            (world_after (post_message exampleEnv "491700000002%40s.whatsapp.net"
                            (Some "on my way") connectedWorld))) =
    Returned {| status := 200;
                body := MessageList (Array
                  [ messageData (inbound "491700000002@s.whatsapp.net" "B1" "hello" 2000);
                    sent_record exampleEnv "3EB0C7" "on my way" ]) |}.
Proof.
  rewrite (send_then_read exampleEnv connectedWorld "491700000002%40s.whatsapp.net"
             "491700000002@s.whatsapp.net" "on my way" "3EB0C7" 1%nat);
    try reflexivity.
  discriminate.
Defined.

(** [X22] Inbound messages can be read back: after the handler has run
    through a live batch in a connected state, reading the messages of a chat
    id of the batch answers 200 with what was cached before followed by the
    records of the batch's messages for that chat, in order. *)
Theorem receive_then_read env msgs w chatId decoded :
  result (on_messages_upsert msgs "notify" w) = Returned tt ->
  connected (connectionState w) = true ->
  decodeURIComponent env chatId = Returned decoded ->
  decoded ∈ map WAMessage.remoteJid msgs ->
  get_messages env chatId (world_after (on_messages_upsert msgs "notify" w)) =
    (Returned {| status := 200;
                 body := MessageList (Array
                   (cached w decoded ++
                    map messageData
                      (filter (fun m => WAMessage.remoteJid m = decoded) msgs))%list) |},
     world_after (on_messages_upsert msgs "notify" w), []).
Proof.
  intros Hres Hc Hd Hin.
  destruct (on_messages_upsert_run msgs "notify" w) as (done & rest & Hsplit & Hw & _ & Hall).
  rewrite (Hall Hres eq_refl), app_nil_r in Hsplit. subst done.
  assert (Hsome : is_Some (messagesStore (ingested_all msgs w) !! decoded)).
  { clear Hres Hw Hall Hc. revert w.
    induction msgs as [|m msgs IH]; intros w.
    - apply elem_of_nil in Hin. contradiction.
    - simpl. simpl in Hin. apply elem_of_cons in Hin as [-> | Hin].
      + clear IH. assert (H0 : is_Some (messagesStore (ingested m w) !! WAMessage.remoteJid m)).
        { unfold ingested. simpl. rewrite lookup_insert_eq. eauto. }
        revert H0. generalize (ingested m w). clear w.
        induction msgs as [|m' msgs IH]; intros w0 H0; [exact H0|].
        simpl. apply IH. unfold ingested. simpl. rewrite lookup_insert.
        destruct (decide (WAMessage.remoteJid m' = WAMessage.remoteJid m)); eauto.
      + apply IH. exact Hin. }
  destruct Hsome as [l Hl]. rewrite Hw.
  rewrite (get_messages_cached env _ chatId decoded l).
  - pose proof (ingested_all_cached msgs w decoded) as Hcached.
    unfold cached at 1 in Hcached. rewrite Hl in Hcached. simpl in Hcached.
    rewrite Hcached. reflexivity.
  - destruct (ingested_all_fixed msgs w) as [_ ->]. exact Hc.
  - exact Hd.
  - exact Hl.
Qed.

Lemma receive_then_read_witness :
  result (get_messages exampleEnv "491700000001%40s.whatsapp.net"
            (world_after (on_messages_upsert alice_bob_alice "notify"
                            (with_connectionState (set_connected true initialConnectionState)
                               initialWorld)))) =
    Returned {| status := 200;
                body := MessageList (Array
                  [ messageData (inbound "491700000001@s.whatsapp.net" "A1" "hi" 1000);
                    messageData (inbound "491700000001@s.whatsapp.net" "A2" "are you there?" 3000) ]) |}.
Proof.
  rewrite (receive_then_read exampleEnv alice_bob_alice
             (with_connectionState (set_connected true initialConnectionState) initialWorld)
             "491700000001%40s.whatsapp.net" "491700000001@s.whatsapp.net").
  - reflexivity.
  - vm_compute. reflexivity.
  - reflexivity.
  - reflexivity.
  - apply (bool_decide_unpack _). vm_compute. exact I.
Defined.

(** ** More on disconnect and contacts *)

(** [X23] When the logout of the present client succeeds but the session
    directory cannot be removed, or cannot be created again, disconnect
    answers 500 with that error's message: the client handle is already
    cleared, while [connectionState], the chats and the message cache are
    not reset. *)
Theorem disconnect_directory_failure env w s e :
  sock w = Some s ->
  logout env = Returned tt ->
  existsSync env = true ->
  rmSync env = Thrown e \/ (rmSync env = Returned tt /\ mkdirSync env = Thrown e) ->
  let r := disconnect env w in
  result r = Returned {| status := 500; body := Plain false e |} /\
  world_after r = with_sock None (during env AwaitLogout w) /\
  calls r =
    ([CallLogout; CallExistsSync; CallRmSync]
       ++ match rmSync env with Returned _ => [CallMkdirSync] | Thrown _ => [] end)%list.
Proof.
  intros Hs Hl Hex Hfs r. subst r. unfold disconnect. unfold_js.
  rewrite Hs. simpl. rewrite Hl, Hex. simpl.
  destruct Hfs as [Hrm | [Hrm Hmk]].
  - rewrite Hrm. simpl. repeat split; reflexivity.
  - rewrite Hrm, Hmk. simpl. repeat split; reflexivity.
Qed.

Lemma disconnect_directory_failure_witness :
  let r := disconnect refusedEnv connectedWorld in
  result r =
    Returned {| status := 500; body := Plain false "EBUSY: resource busy or locked" |} /\
  world_after r = with_sock None connectedWorld.
Proof.
  destruct (disconnect_directory_failure refusedEnv connectedWorld 1%nat
              "EBUSY: resource busy or locked") as (Hres & Hw & _).
  - vm_compute. reflexivity.
  - reflexivity.
  - reflexivity.
  - left. reflexivity.
  - split; [exact Hres | exact Hw].
Defined.

(** [X24] While connected, the contacts endpoint answers 200 with one contact
    per chat, in the order of the chat list and with the chat's id, name and
    group flag; a contact's number is its id up to the first [@] and so
    holds no [@].  The endpoint makes no call and changes nothing. *)
Theorem contacts_mirror_chats w :
  connected (connectionState w) = true ->
  exists contacts,
    get_contacts w = (Returned {| status := 200; body := ContactList contacts |}, w, []) /\
    map Contact.id contacts = map Chat.id (chats w) /\
    map Contact.name contacts = map Chat.name (chats w) /\
    map Contact.isGroup contacts = map Chat.isGroup (chats w) /\
    map Contact.number contacts = map (fun c => split_first "@" (Chat.id c)) (chats w) /\
    Forall (fun c => is_jid (Contact.number c) = false) contacts.
Proof.
  intros Hc. eexists. split.
  - unfold get_contacts. unfold_js. rewrite Hc. reflexivity.
  - rewrite !map_map. repeat split; try reflexivity.
    apply Forall_forall. intros c Hin. apply list_elem_of_fmap in Hin as (ch & -> & _).
    apply split_first_no_sep.
Qed.

Lemma contacts_mirror_chats_witness :
  exists contacts,
    get_contacts connectedWorld =
      (Returned {| status := 200; body := ContactList contacts |}, connectedWorld, []) /\
    map Contact.number contacts = ["491700000002"; "491700000001"].
Proof.
  destruct (contacts_mirror_chats connectedWorld) as (contacts & Hrun & _ & _ & _ & Hnum & _).
  - vm_compute. reflexivity.
  - exists contacts. split; [exact Hrun|]. rewrite Hnum. vm_compute. reflexivity.
Defined.
